(** * Warbler: the request handlers of [app.py] over a relational store

    The handlers of [app.py] are embedded as computations in a small
    state-and-exception monad.  The state is the committed database, the
    ORM session's queue of pending writes, the Flask session cookie and
    the flashed messages.  What [models.py], [forms.py] and the frameworks
    contribute (password hashing, field validators, default image URLs,
    table constraints) is either a field of the class [Collaborators] or a
    definition marked as modelled from the specification. *)

From stdpp Require Import gmap strings list fin_maps sorting pretty.

(** ** Tables *)

(** A row of [Accounts]; the primary key is the key of the map below. *)
Record User := mkUser {
  username : string;
  email : string;
  password : string;
  image_url : string;
  header_image_url : string;
  bio : string;
  location : string
}.

(** A row of [Messages]. *)
Record Message := mkMessage {
  text : string;
  timestamp : nat;
  user_id : nat
}.

(** The persisted state.  [follows] holds pairs (follower, followee) and
    [likes] pairs (account, message); both tables have a composite key made
    of all their columns, so each is a finite set of pairs.  The two
    counters are the serial sequences of the primary keys. *)
Record DB := mkDB {
  users : gmap nat User;
  messages : gmap nat Message;
  follows : gset (nat * nat);
  likes : gset (nat * nat);
  users_seq : nat;
  messages_seq : nat
}.

(** ** Requests and forms *)

Inductive Method := GET | POST.

Record FormData := mkFormData {
  f_username : string;
  f_password : string;
  f_email : string;
  f_image_url : string;
  f_header_image_url : string;
  f_bio : string;
  f_text : string
}.

(** A request as a view function sees it.  [csrf_token_ok] says that the
    submitted anti-forgery token is present and valid for the session. *)
Record Request := mkRequest {
  method : Method;
  csrf_token_ok : bool;
  form_data : FormData;
  referrer : string;
  now : nat
}.

Inductive Form :=
  CSRFProtectForm | UserAddForm | LoginForm | MessageForm | UserEditForm.

(** What the handlers import and do not define. *)
Class Collaborators := {
  DEFAULT_IMAGE_URL : string;
  DEFAULT_HEADER_IMAGE_URL : string;
  User_image_url_default : string;
  generate_password_hash : string → string;
  check_password_hash : string → string → bool;
  field_validators : Form → FormData → bool
}.

(** ** Outcomes *)

Inductive Exn :=
  NotFound | Forbidden | ValueError | IntegrityError | AttributeError.

Inductive Response :=
  | redirect (url : string)
  | render_template (template : string) (shown : list (nat * Message)).

(** ** The unit of work *)

(** Writes queued in the ORM session until [commit]. *)
Inductive Op :=
  | InsertUser (u : User)
  | UpdateUser (id : nat) (u : User)
  | DeleteUser (id : nat)
  | InsertMessage (m : Message)
  | DeleteMessage (id : nat)
  | DeleteMessagesOf (owner : nat)
  | InsertFollow (e : nat * nat)
  | DeleteFollow (e : nat * nat)
  | InsertLike (e : nat * nat)
  | DeleteLike (e : nat * nat).

Record World := mkWorld {
  store : DB;
  pending : list Op;
  session : option nat;
  flashes : list (string * string)
}.

Definition M (A : Type) : Type := World → (Exn + A) * World.

Definition ret {A} (a : A) : M A := λ w, (inr a, w).

Definition bind {A B} (c : M A) (k : A → M B) : M B :=
  λ w, match c w with
       | (inl e, w') => (inl e, w')
       | (inr a, w') => k a w'
       end.

Definition raise {A} (e : Exn) : M A := λ w, (inl e, w).

Notation "'let!' x ':=' c 'in' k" := (bind c (λ x, k))
  (at level 10, x binder, c at level 100, k at level 200).
Notation "c ';;' k" := (bind c (λ _, k))
  (at level 100, k at level 200, right associativity).

(** ** Constraints of the schema *)

(** Modelled from the spec: the uniqueness constraints of [models.py]
    (username and email are each globally unique).  [taken self u d] says
    that a row other than [self] already has the username or the email of
    [u]. *)
Definition same_identity (u v : User) : bool :=
  bool_decide (username u = username v) || bool_decide (email u = email v).

Definition taken (self : option nat) (u : User) (d : DB) : bool :=
  existsb (λ kv, negb (bool_decide (Some kv.1 = self)) && same_identity u kv.2)
          (map_to_list (users d)).

(** Modelled from the spec: the foreign keys of [models.py] and their
    cascades.  Removing messages removes the likes on them.  An account row
    can go once no message row refers to it; its likes and the follow edges
    at either end go with it. *)
Definition drop_messages (P : nat → Message → bool) (d : DB) : DB :=
  let gone := filter (λ kv, P kv.1 kv.2 = true) (messages d) in
  mkDB (users d)
       (filter (λ kv, P kv.1 kv.2 = false) (messages d))
       (follows d)
       (filter (λ e, gone !! e.2 = None) (likes d))
       (users_seq d) (messages_seq d).

Definition owns_none (id : nat) (d : DB) : bool :=
  forallb (λ kv, negb (bool_decide (user_id kv.2 = id)))
          (map_to_list (messages d)).

Definition drop_user (id : nat) (d : DB) : DB :=
  mkDB (delete id (users d))
       (messages d)
       (filter (λ e, e.1 ≠ id ∧ e.2 ≠ id) (follows d))
       (filter (λ e, e.1 ≠ id) (likes d))
       (users_seq d) (messages_seq d).

(** One flushed write; [None] is a constraint violation. *)
Definition apply_op (o : Op) (d : DB) : option DB :=
  match o with
  | InsertUser u =>
      if taken None u d then None
      else Some (mkDB (<[S (users_seq d) := u]> (users d)) (messages d)
                      (follows d) (likes d) (S (users_seq d)) (messages_seq d))
  | UpdateUser id u =>
      if taken (Some id) u d then None
      else Some (mkDB (<[id := u]> (users d)) (messages d)
                      (follows d) (likes d) (users_seq d) (messages_seq d))
  | DeleteUser id =>
      if owns_none id d then Some (drop_user id d) else None
  | InsertMessage m =>
      if bool_decide (is_Some (users d !! user_id m))
      then Some (mkDB (users d) (<[S (messages_seq d) := m]> (messages d))
                      (follows d) (likes d) (users_seq d) (S (messages_seq d)))
      else None
  | DeleteMessage id =>
      Some (drop_messages (λ k _, bool_decide (k = id)) d)
  | DeleteMessagesOf owner =>
      Some (drop_messages (λ _ m, bool_decide (user_id m = owner)) d)
  | InsertFollow e =>
      if bool_decide (e ∈ follows d) then None
      else Some (mkDB (users d) (messages d) ({[e]} ∪ follows d) (likes d)
                      (users_seq d) (messages_seq d))
  | DeleteFollow e =>
      Some (mkDB (users d) (messages d) (follows d ∖ {[e]}) (likes d)
                 (users_seq d) (messages_seq d))
  | InsertLike e =>
      if bool_decide (e ∈ likes d) then None
      else Some (mkDB (users d) (messages d) (follows d) ({[e]} ∪ likes d)
                      (users_seq d) (messages_seq d))
  | DeleteLike e =>
      Some (mkDB (users d) (messages d) (follows d) (likes d ∖ {[e]})
                 (users_seq d) (messages_seq d))
  end.

Fixpoint flush (ops : list Op) (d : DB) : option DB :=
  match ops with
  | [] => Some d
  | o :: ops' => match apply_op o d with
                 | Some d' => flush ops' d'
                 | None => None
                 end
  end.

(** ** Primitive effects *)

(** [db.session.add], attribute assignment, [db.session.delete],
    collection [append]/[remove]: the write joins the queue. *)
Definition enqueue (o : Op) : M unit :=
  λ w, (inr (), mkWorld (store w) (pending w ++ [o]) (session w) (flashes w)).

(** [db.session.commit()]: all queued writes or none. *)
Definition commit : M unit :=
  λ w, match flush (pending w) (store w) with
       | Some d => (inr (), mkWorld d [] (session w) (flashes w))
       | None => (inl IntegrityError, w)
       end.

Definition query : M DB := λ w, (inr (store w), w).

Definition flash (message category : string) : M unit :=
  λ w, (inr (), mkWorld (store w) (pending w) (session w)
                        (flashes w ++ [(message, category)])).

Definition get_or_404 {A} (row : option A) : M A :=
  match row with
  | Some a => ret a
  | None => raise NotFound
  end.

(** [try: body except IntegrityError: handler], then [rest] after the
    [try] statement when [body] went through. *)
Definition try_except_IntegrityError {A B}
    (body : M A) (handler : M B) (rest : A → M B) : M B :=
  λ w, match body w with
       | (inl IntegrityError, w') => handler w'
       | (inl e, w') => (inl e, w')
       | (inr a, w') => rest a w'
       end.

(** [session[CURR_USER_KEY] = user.id] *)
Definition do_login (uid : nat) : M unit :=
  λ w, (inr (), mkWorld (store w) (pending w) (Some uid) (flashes w)).

(** [if CURR_USER_KEY in session: del session[CURR_USER_KEY]] *)
Definition do_logout : M unit :=
  λ w, (inr (), mkWorld (store w) (pending w) None (flashes w)).

(** ** Forms and the request globals *)

Definition is_submitted (req : Request) : bool :=
  match method req with POST => true | GET => false end.

(** [FlaskForm.validate_on_submit]: the request is a submission, its
    anti-forgery token verifies, and the fields of the form validate.
    [CSRFProtectForm] has no field of its own. *)
Definition validate_on_submit `{Collaborators} (F : Form) (req : Request) : bool :=
  is_submitted req && csrf_token_ok req &&
  match F with
  | CSRFProtectForm => true
  | _ => field_validators F (form_data req)
  end.

(** Flask's [g]: the acting account loaded by [add_user_to_g]. *)
Record G := mkG { g_user : option (nat * User) }.

Definition add_user_to_g (sess : option nat) (d : DB) : G :=
  match sess with
  | Some k => mkG ((λ u, (k, u)) <$> users d !! k)
  | None => mkG None
  end.

(** Truth value of [g.user]. *)
Definition truthy {A} (o : option A) : bool :=
  match o with Some _ => true | None => false end.

(** Attribute access on [g.user]; on [None] Python raises. *)
Definition with_user {A} (g : G) (k : nat → User → M A) : M A :=
  match g_user g with
  | Some (uid, u) => k uid u
  | None => raise AttributeError
  end.

(** Python's [a or b] on strings. *)
Definition str_or (a b : string) : string :=
  match a with EmptyString => b | _ => a end.

(** ** [models.py] *)

(** Modelled from the spec: [User.authenticate] of [models.py].  Returns
    the account if the username exists and the password verifies against
    the stored hash, otherwise no match. *)
Definition User_authenticate `{Collaborators}
    (name pwd : string) (d : DB) : option (nat * User) :=
  match List.find (λ kv, bool_decide (username kv.2 = name))
                  (map_to_list (users d)) with
  | Some (k, u) => if check_password_hash (password u) pwd
                   then Some (k, u) else None
  | None => None
  end.

(** Modelled from the spec: [User.signup] of [models.py].  Hashes the
    password and adds the new account to the session; the header image is
    the default and the free-text fields are empty.  The value returned
    stands for the new object: the id it gets when flushed. *)
Definition User_signup `{Collaborators}
    (name pwd mail image : string) : M nat :=
  let! d := query in
  enqueue (InsertUser (mkUser name mail (generate_password_hash pwd) image
                              DEFAULT_HEADER_IMAGE_URL "" "")) ;;
  ret (S (users_seq d)).

(** Modelled from the spec: the [following] relationship of [models.py].
    [g.user.following] is the list of accounts joined to the viewer through
    [follows]; its order plays no part in the handlers. *)
Definition following (uid : nat) (d : DB) : list nat :=
  filter (λ k, is_Some (users d !! k))
         ((elements (filter (λ e, e.1 = uid) (follows d))).*2).

(** [collection.remove(x)] on a relationship list: Python's [list.remove]
    raises [ValueError] when [x] is not in the list. *)
Definition collection_remove (present : bool) (o : Op) : M unit :=
  if present then enqueue o else raise ValueError.

(** ** View functions *)

Section views.
Context `{Collaborators}.

Definition unauthorized : M Response :=
  flash "Access unauthorized." "danger" ;;
  ret (redirect "/").

Definition demo (g : G) (req : Request) : M Response :=
  let! d := query in
  match User_authenticate "guest" "password" d with
  | Some (uid, u) =>
      do_login uid ;;
      flash ("Hello, " +:+ username u +:+ "!") "success" ;;
      ret (redirect "/")
  | None =>
      flash "Error with guest account. Please signup/login manually." "danger" ;;
      ret (redirect "/login")
  end.

Definition signup (g : G) (req : Request) : M Response :=
  do_logout ;;
  let form := form_data req in
  if validate_on_submit UserAddForm req then
    try_except_IntegrityError
      (let! user := User_signup (f_username form) (f_password form)
                      (f_email form)
                      (str_or (f_image_url form) User_image_url_default) in
       commit ;;
       ret user)
      (flash "Username/Email must be unique" "danger" ;;
       ret (render_template "users/signup.html" []))
      (λ user,
         do_login user ;;
         ret (redirect "/"))
  else ret (render_template "users/signup.html" []).

Definition login (g : G) (req : Request) : M Response :=
  let form := form_data req in
  if validate_on_submit LoginForm req then
    let! d := query in
    match User_authenticate (f_username form) (f_password form) d with
    | Some (uid, u) =>
        do_login uid ;;
        flash ("Hello, " +:+ username u +:+ "!") "success" ;;
        ret (redirect "/")
    | None =>
        flash "Invalid credentials." "danger" ;;
        ret (render_template "users/login.html" [])
    end
  else ret (render_template "users/login.html" []).

Definition logout (g : G) (req : Request) : M Response :=
  if negb (truthy (g_user g)) || negb (validate_on_submit CSRFProtectForm req)
  then unauthorized
  else
    do_logout ;;
    flash "Logged out" "success" ;;
    ret (redirect "/login").

Definition start_following (follow_id : nat) (g : G) (req : Request) : M Response :=
  if negb (truthy (g_user g)) || negb (validate_on_submit CSRFProtectForm req)
  then unauthorized
  else
    let! d := query in
    let! _ := get_or_404 (users d !! follow_id) in
    with_user g (λ uid _,
      enqueue (InsertFollow (uid, follow_id)) ;;
      commit ;;
      ret (redirect (referrer req))).

(** [User.query.get] gives [None] for an unknown id, and [None] is in
    no collection. *)
Definition stop_following (follow_id : nat) (g : G) (req : Request) : M Response :=
  if negb (truthy (g_user g)) || negb (validate_on_submit CSRFProtectForm req)
  then unauthorized
  else
    let! d := query in
    let followed_user := users d !! follow_id in
    with_user g (λ uid _,
      collection_remove
        (truthy followed_user && bool_decide (follow_id ∈ following uid d))
        (DeleteFollow (uid, follow_id)) ;;
      commit ;;
      ret (redirect (referrer req))).

Definition profile (g : G) (req : Request) : M Response :=
  if negb (truthy (g_user g)) then unauthorized
  else
    let form := form_data req in
    if validate_on_submit UserEditForm req then
      with_user g (λ uid u,
        let! d := query in
        if truthy (User_authenticate (username u) (f_password form) d) then
          enqueue (UpdateUser uid
            (mkUser (f_username form) (f_email form) (password u)
                    (str_or (f_image_url form) DEFAULT_IMAGE_URL)
                    (str_or (f_header_image_url form) DEFAULT_HEADER_IMAGE_URL)
                    (f_bio form) (location u))) ;;
          commit ;;
          ret (redirect ("/users/" +:+ pretty uid))
        else
          flash "Incorrect password" "danger" ;;
          ret (render_template "users/edit.html" []))
    else ret (render_template "users/edit.html" []).

Definition delete_user (g : G) (req : Request) : M Response :=
  if negb (truthy (g_user g)) || negb (validate_on_submit CSRFProtectForm req)
  then unauthorized
  else
    do_logout ;;
    with_user g (λ uid _,
      enqueue (DeleteMessagesOf uid) ;;
      enqueue (DeleteUser uid) ;;
      commit ;;
      ret (redirect "/signup")).

Definition add_message (g : G) (req : Request) : M Response :=
  if negb (truthy (g_user g)) then unauthorized
  else
    let form := form_data req in
    if validate_on_submit MessageForm req then
      with_user g (λ uid _,
        enqueue (InsertMessage (mkMessage (f_text form) (now req) uid)) ;;
        commit ;;
        ret (redirect ("/users/" +:+ pretty uid)))
    else ret (render_template "messages/create.html" []).

(** The [print(form.errors)] of the denied branch writes to the server's
    standard output only. *)
Definition like_message (msg_id : nat) (g : G) (req : Request) : M Response :=
  if negb (validate_on_submit CSRFProtectForm req) || negb (truthy (g_user g))
  then unauthorized
  else
    let! d := query in
    let! msg := get_or_404 (messages d !! msg_id) in
    with_user g (λ uid _,
      (if bool_decide (user_id msg = uid) then raise Forbidden else ret ()) ;;
      (if bool_decide ((uid, msg_id) ∈ likes d)
       then collection_remove true (DeleteLike (uid, msg_id))
       else enqueue (InsertLike (uid, msg_id))) ;;
      commit ;;
      ret (redirect (referrer req))).

Definition delete_message (message_id : nat) (g : G) (req : Request) : M Response :=
  if negb (truthy (g_user g)) || negb (validate_on_submit CSRFProtectForm req)
  then unauthorized
  else
    let! d := query in
    let! _ := get_or_404 (messages d !! message_id) in
    enqueue (DeleteMessage message_id) ;;
    commit ;;
    with_user g (λ uid _, ret (redirect ("/users/" +:+ pretty uid))).

(** [ORDER BY timestamp DESC]: newer rows first. *)
Definition newer_first (a b : nat * Message) : Prop :=
  timestamp b.2 ≤ timestamp a.2.

#[global] Instance newer_first_dec a b : Decision (newer_first a b).
Proof. unfold newer_first. apply _. Defined.

Definition feed (following_ids : list nat) (d : DB) : list (nat * Message) :=
  take 100
    (merge_sort newer_first
       (filter (λ kv, user_id kv.2 ∈ following_ids)
               (map_to_list (messages d)))).

Definition homepage (g : G) (req : Request) : M Response :=
  match g_user g with
  | Some (uid, _) =>
      let! d := query in
      let following_ids := following uid d ++ [uid] in
      ret (render_template "home.html" (feed following_ids d))
  | None => ret (render_template "home-anon.html" [])
  end.
End views.

(** ** Serving a request *)

Inductive Route :=
  | route_demo
  | route_signup
  | route_login
  | route_logout
  | route_start_following (follow_id : nat)
  | route_stop_following (follow_id : nat)
  | route_profile
  | route_delete_user
  | route_add_message
  | route_like_message (msg_id : nat)
  | route_delete_message (message_id : nat)
  | route_homepage.

Definition view `{Collaborators} (r : Route) : G → Request → M Response :=
  match r with
  | route_demo => demo
  | route_signup => signup
  | route_login => login
  | route_logout => logout
  | route_start_following follow_id => start_following follow_id
  | route_stop_following follow_id => stop_following follow_id
  | route_profile => profile
  | route_delete_user => delete_user
  | route_add_message => add_message
  | route_like_message msg_id => like_message msg_id
  | route_delete_message message_id => delete_message message_id
  | route_homepage => homepage
  end.

(** What a request leaves behind: the response or the exception that
    escaped the view, the committed database, the session cookie and the
    messages flashed.  Writes still queued when the request ends are
    discarded with the ORM session. *)
Record Result := mkResult {
  outcome : Exn + Response;
  db_after : DB;
  session_after : option nat;
  flashed : list (string * string)
}.

(** The [before_request] hooks, then the view. *)
Definition serve `{Collaborators}
    (r : Route) (req : Request) (sess : option nat) (d : DB) : Result :=
  let g := add_user_to_g sess d in
  let '(o, w) := view r g req (mkWorld d [] sess []) in
  mkResult o (store w) (session w) (flashes w).

(** The single outcome of the authorization gate. *)
Definition access_unauthorized (sess : option nat) (d : DB) : Result :=
  mkResult (inr (redirect "/")) d sess [("Access unauthorized.", "danger")].

(** How each route guards itself: with the token-only form together with
    the account check, with the account check followed by the validation
    of the route's own form (re-rendered from [template] when it fails), or
    with no account check. *)
Inductive Gate :=
  | token_gate
  | form_gate (template : string)
  | ungated.

Definition gate_of (r : Route) : Gate :=
  match r with
  | route_logout | route_start_following _ | route_stop_following _
  | route_delete_user | route_like_message _ | route_delete_message _ =>
      token_gate
  | route_profile => form_gate "users/edit.html"
  | route_add_message => form_gate "messages/create.html"
  | route_demo | route_signup | route_login | route_homepage => ungated
  end.

(** The account row that [signup] hands to [User.signup]. *)
Definition signup_row `{Collaborators} (form : FormData) : User :=
  mkUser (f_username form) (f_email form)
         (generate_password_hash (f_password form))
         (str_or (f_image_url form) User_image_url_default)
         DEFAULT_HEADER_IMAGE_URL "" "".

(** ** Read-only views *)

(** What a read-only view answers: a plain response, or a template with
    the keyword arguments it is given ([user] and, for some, [messages];
    [message] for the message page). *)
Inductive Page :=
  | page_response (r : Response)
  | page_user (template : string) (user : nat * User)
      (messages : option (list (nat * Message)))
  | page_message (template : string) (message : nat * Message).

(** Modelled from the spec: the [authored_messages] relationship of
    [models.py], the messages owned by the account.  The order of the
    collection is the store's. *)
Definition authored_messages (uid : nat) (d : DB) : list (nat * Message) :=
  filter (λ kv, user_id kv.2 = uid) (map_to_list (messages d)).

(** Modelled from the spec: the [liked_messages] relationship of
    [models.py], the messages joined to the account through [likes]. *)
Definition liked_messages (uid : nat) (d : DB) : list (nat * Message) :=
  filter (λ kv, (uid, kv.1) ∈ likes d) (map_to_list (messages d)).

Section read_views.
Context `{Collaborators}.

Definition unauthorized_page : M Page :=
  let! r := unauthorized in
  ret (page_response r).

Definition show_user (uid : nat) (g : G) (req : Request) : M Page :=
  if negb (truthy (g_user g)) then unauthorized_page
  else
    let! d := query in
    let! user := get_or_404 (users d !! uid) in
    ret (page_user "users/show.html" (uid, user)
           (Some (authored_messages uid d))).

Definition show_following (uid : nat) (g : G) (req : Request) : M Page :=
  if negb (truthy (g_user g)) then unauthorized_page
  else
    let! d := query in
    let! user := get_or_404 (users d !! uid) in
    ret (page_user "users/following.html" (uid, user) None).

Definition show_followers (uid : nat) (g : G) (req : Request) : M Page :=
  if negb (truthy (g_user g)) then unauthorized_page
  else
    let! d := query in
    let! user := get_or_404 (users d !! uid) in
    ret (page_user "users/followers.html" (uid, user) None).

Definition show_liked_messages (uid : nat) (g : G) (req : Request) : M Page :=
  if negb (truthy (g_user g)) then unauthorized_page
  else
    let! d := query in
    let! user := get_or_404 (users d !! uid) in
    ret (page_user "users/show.html" (uid, user)
           (Some (liked_messages uid d))).

Definition show_message (message_id : nat) (g : G) (req : Request) : M Page :=
  if negb (truthy (g_user g)) then unauthorized_page
  else
    let! d := query in
    let! msg := get_or_404 (messages d !! message_id) in
    ret (page_message "messages/show.html" (message_id, msg)).
End read_views.

Inductive ReadRoute :=
  | route_show_user (user_id : nat)
  | route_show_following (user_id : nat)
  | route_show_followers (user_id : nat)
  | route_show_liked_messages (user_id : nat)
  | route_show_message (message_id : nat).

Definition read_view `{Collaborators} (v : ReadRoute) : G → Request → M Page :=
  match v with
  | route_show_user uid => show_user uid
  | route_show_following uid => show_following uid
  | route_show_followers uid => show_followers uid
  | route_show_liked_messages uid => show_liked_messages uid
  | route_show_message message_id => show_message message_id
  end.

Record PageResult := mkPageResult {
  page : Exn + Page;
  page_db : DB;
  page_session : option nat;
  page_flashed : list (string * string)
}.

(** The [before_request] hooks, then the read-only view. *)
Definition serve_page `{Collaborators}
    (v : ReadRoute) (req : Request) (sess : option nat) (d : DB) : PageResult :=
  let g := add_user_to_g sess d in
  let '(o, w) := read_view v g req (mkWorld d [] sess []) in
  mkPageResult o (store w) (session w) (flashes w).




(** ** A small instance, used to run the model *)

Definition sample_env : Collaborators := {|
  DEFAULT_IMAGE_URL := "/static/images/default-pic.png";
  DEFAULT_HEADER_IMAGE_URL := "/static/images/warbler-hero.jpg";
  User_image_url_default := "/static/images/default-pic.png";
  generate_password_hash := λ p, "$2b$" +:+ p;
  check_password_hash := λ h p, bool_decide (h = "$2b$" +:+ p);
  field_validators := λ F fd,
    match F with
    | MessageForm => negb (bool_decide (f_text fd = ""))
    | _ => negb (bool_decide (f_username fd = ""))
    end
|}.

Definition alice : User :=
  mkUser "alice" "alice@example.com" "$2b$wonderland" "/a.png" "/ah.png" "" "".
Definition bob : User :=
  mkUser "bob" "bob@example.com" "$2b$builder" "/b.png" "/bh.png" "" "".

Definition sample_db : DB :=
  mkDB (<[1 := alice]> (<[2 := bob]> ∅))
       (<[1 := mkMessage "hello" 10 1]>
        (<[2 := mkMessage "first" 20 2]>
         (<[3 := mkMessage "second" 30 2]> ∅)))
       {[ (1, 2) ]}
       {[ (1, 2) ]}
       2 3.

Definition blank_form : FormData := mkFormData "" "" "" "" "" "" "".

Definition post (ok : bool) (fd : FormData) : Request :=
  mkRequest POST ok fd "/users/1" 40.

(** * Properties *)

(** ** Running a view symbolically *)

Lemma add_user_to_g_signed_in uid u d :
  users d !! uid = Some u → add_user_to_g (Some uid) d = mkG (Some (uid, u)).
Proof. intros Hu. unfold add_user_to_g. by rewrite Hu. Qed.

Lemma validate_csrf_token `{Collaborators} F req :
  csrf_token_ok req = false → validate_on_submit F req = false.
Proof.
  intros Htok. unfold validate_on_submit. rewrite Htok.
  by destruct (is_submitted req).
Qed.

Ltac unfold_effects :=
  unfold unauthorized, get_or_404, with_user, collection_remove, User_signup,
    try_except_IntegrityError, bind, ret, raise, enqueue, commit, query,
    flash, do_login, do_logout; simpl.

(** ** The home feed *)

#[local] Instance newer_first_trans : Transitive newer_first.
Proof. unfold newer_first. intros a b c Hab Hbc. lia. Qed.

#[local] Instance newer_first_total : Total newer_first.
Proof. unfold newer_first. intros a b. lia. Qed.

Lemma StronglySorted_take {A} (R : relation A) n (l : list A) :
  StronglySorted R l → StronglySorted R (take n l).
Proof.
  intros Hl. rewrite <- (take_drop n l) in Hl.
  by apply StronglySorted_app_1_l in Hl.
Qed.

Lemma StronglySorted_lookup_lt {A} (R : relation A) (l : list A) i j a b :
  StronglySorted R l → i < j → l !! i = Some a → l !! j = Some b → R a b.
Proof.
  intros Hl. revert i j. induction Hl as [|x l Hl IH Hx]; intros i j Hij Hi Hj.
  - by rewrite lookup_nil in Hi.
  - destruct j as [|j]; [lia|]. destruct i as [|i]; simpl in *.
    + injection Hi as <-. rewrite Forall_forall in Hx.
      apply Hx. by eapply list_elem_of_lookup_2.
    + apply (IH i j); [lia|done..].
Qed.

Lemma feed_sorted ids d : StronglySorted newer_first (feed ids d).
Proof. apply StronglySorted_take, StronglySorted_merge_sort; apply _. Qed.

Lemma feed_length ids d : length (feed ids d) ≤ 100.
Proof. unfold feed. rewrite length_take. lia. Qed.

Lemma elem_of_feed ids d id m :
  (id, m) ∈ feed ids d → messages d !! id = Some m ∧ user_id m ∈ ids.
Proof.
  unfold feed. intros Hin. apply subseteq_take in Hin.
  rewrite merge_sort_Permutation in Hin.
  apply list_elem_of_filter in Hin as [Hown Hin].
  by apply elem_of_map_to_list in Hin.
Qed.

Lemma elem_of_following uid d k :
  k ∈ following uid d ↔ (uid, k) ∈ follows d ∧ is_Some (users d !! k).
Proof.
  unfold following. rewrite list_elem_of_filter, list_elem_of_fmap. split.
  - intros [Hk [[a b] [-> Hab]]]. split; [|done].
    apply elem_of_elements, elem_of_filter in Hab as [Ha Hab].
    simpl in *. by subst a.
  - intros [Hedge Hk]. split; [done|]. exists (uid, k). split; [done|].
    by apply elem_of_elements, elem_of_filter.
Qed.

(** C1: for a signed-in viewer the home page shows the feed; every message
    shown is a stored message owned by the viewer or by an account the
    viewer follows, at most 100 are shown, and a message shown earlier is
    never older than one shown later. *)
Theorem homepage_feed `{Collaborators} req uid u d :
  users d !! uid = Some u →
  let r := serve route_homepage req (Some uid) d in
  ∃ shown,
    outcome r = inr (render_template "home.html" shown) ∧
    (∀ id m, (id, m) ∈ shown →
       messages d !! id = Some m ∧
       (user_id m = uid ∨ (uid, user_id m) ∈ follows d)) ∧
    length shown ≤ 100 ∧
    (∀ i j a b, i < j → shown !! i = Some a → shown !! j = Some b →
       timestamp b.2 ≤ timestamp a.2).
Proof.
  intros Hu. unfold serve, view, homepage.
  rewrite (add_user_to_g_signed_in uid u d Hu). unfold_effects.
  eexists. split; [reflexivity|]. split; [|split].
  - intros id m Hin. apply elem_of_feed in Hin as [Hm Hown]. split; [done|].
    apply elem_of_app in Hown as [Hf|Hs].
    + right. by apply elem_of_following in Hf as [Hf _].
    + left. by apply list_elem_of_singleton in Hs.
  - apply feed_length.
  - intros i j a b Hij Hi Hj.
    exact (StronglySorted_lookup_lt newer_first _ i j a b
             (feed_sorted _ d) Hij Hi Hj).
Qed.

(** The sample feed of alice: her own message and those of bob, newest first. *)
Lemma homepage_feed_witness :
  users sample_db !! 1 = Some alice ∧
  let r := @serve sample_env route_homepage (mkRequest GET false blank_form "" 40)
             (Some 1) sample_db in
  ∃ shown,
    outcome r = inr (render_template "home.html" shown) ∧
    (∀ id m, (id, m) ∈ shown →
       messages sample_db !! id = Some m ∧
       (user_id m = 1 ∨ (1, user_id m) ∈ follows sample_db)) ∧
    length shown ≤ 100 ∧
    (∀ i j a b, i < j → shown !! i = Some a → shown !! j = Some b →
       timestamp b.2 ≤ timestamp a.2).
Proof.
  split; [reflexivity|].
  apply (@homepage_feed sample_env (mkRequest GET false blank_form "" 40)
           1 alice sample_db). reflexivity.
Defined.

(** ** Likes *)

Lemma toggle_off_on (e : nat * nat) (L : gset (nat * nat)) :
  e ∈ L → {[e]} ∪ L ∖ {[e]} = L.
Proof.
  intros He. apply set_eq. intros x.
  rewrite elem_of_union, elem_of_difference, elem_of_singleton.
  destruct (decide (x = e)) as [Heq|Hne]; [subst x|]; tauto.
Qed.

Lemma toggle_on_off (e : nat * nat) (L : gset (nat * nat)) :
  e ∉ L → ({[e]} ∪ L) ∖ {[e]} = L.
Proof.
  intros He. apply set_eq. intros x.
  rewrite elem_of_difference, elem_of_union, elem_of_singleton.
  split; [tauto|]. intros Hx. split; [tauto|]. by intros ->.
Qed.

(** C2: an authenticated account that toggles the like on a message it owns
    gets Forbidden, whether or not a like edge was there before, and the
    database, so the like relation, is left as it was. *)
Theorem like_own_message_forbidden `{Collaborators} req uid u d msg_id m :
  users d !! uid = Some u →
  validate_on_submit CSRFProtectForm req = true →
  messages d !! msg_id = Some m →
  user_id m = uid →
  let r := serve (route_like_message msg_id) req (Some uid) d in
  outcome r = inl Forbidden ∧
  db_after r = d ∧
  ((uid, msg_id) ∈ likes (db_after r) ↔ (uid, msg_id) ∈ likes d).
Proof.
  intros Hu Hform Hm Hown. unfold serve, view, like_message.
  rewrite (add_user_to_g_signed_in uid u d Hu), Hform. unfold_effects.
  rewrite Hm. simpl. rewrite (bool_decide_eq_true_2 _ Hown). simpl.
  done.
Qed.

Lemma like_own_message_forbidden_witness :
  users sample_db !! 1 = Some alice ∧
  @validate_on_submit sample_env CSRFProtectForm (post true blank_form) = true ∧
  messages sample_db !! 1 = Some (mkMessage "hello" 10 1) ∧
  user_id (mkMessage "hello" 10 1) = 1 ∧
  let r := @serve sample_env (route_like_message 1) (post true blank_form)
             (Some 1) sample_db in
  outcome r = inl Forbidden ∧
  db_after r = sample_db ∧
  ((1, 1) ∈ likes (db_after r) ↔ (1, 1) ∈ likes sample_db).
Proof.
  do 4 (split; [reflexivity|]).
  apply (@like_own_message_forbidden sample_env (post true blank_form)
           1 alice sample_db 1 (mkMessage "hello" 10 1)); reflexivity.
Defined.

(** C5: two like requests in a row by the same account on a message of
    another account: the first flips the like edge and the second puts the
    database back as it was. *)
Theorem like_twice_restores `{Collaborators} req1 req2 uid u d msg_id m :
  users d !! uid = Some u →
  validate_on_submit CSRFProtectForm req1 = true →
  validate_on_submit CSRFProtectForm req2 = true →
  messages d !! msg_id = Some m →
  user_id m ≠ uid →
  let r1 := serve (route_like_message msg_id) req1 (Some uid) d in
  let r2 := serve (route_like_message msg_id) req2
              (session_after r1) (db_after r1) in
  outcome r1 = inr (redirect (referrer req1)) ∧
  outcome r2 = inr (redirect (referrer req2)) ∧
  ((uid, msg_id) ∈ likes (db_after r1) ↔ (uid, msg_id) ∉ likes d) ∧
  ((uid, msg_id) ∈ likes (db_after r2) ↔ (uid, msg_id) ∈ likes d) ∧
  db_after r2 = d.
Proof.
  intros Hu Hform1 Hform2 Hm Hown. unfold serve, view, like_message.
  rewrite (add_user_to_g_signed_in uid u d Hu), Hform1. unfold_effects.
  rewrite Hm. simpl. rewrite (bool_decide_eq_false_2 _ Hown). simpl.
  destruct (decide ((uid, msg_id) ∈ likes d)) as [Hin|Hout].
  - rewrite (bool_decide_eq_true_2 _ Hin). simpl.
    unfold add_user_to_g. simpl. rewrite Hu, Hform2. unfold_effects.
    rewrite Hm. simpl. rewrite (bool_decide_eq_false_2 _ Hown). simpl.
    assert ((uid, msg_id) ∉ likes d ∖ {[(uid, msg_id)]}) as Hgone.
    { rewrite elem_of_difference, elem_of_singleton. tauto. }
    rewrite (bool_decide_eq_false_2 _ Hgone). simpl.
    rewrite (bool_decide_eq_false_2 _ Hgone). simpl.
    rewrite (toggle_off_on _ _ Hin). repeat split; try done.
    by destruct d.
  - rewrite (bool_decide_eq_false_2 _ Hout). simpl.
    rewrite (bool_decide_eq_false_2 _ Hout). simpl.
    unfold add_user_to_g. simpl. rewrite Hu, Hform2. unfold_effects.
    rewrite Hm. simpl. rewrite (bool_decide_eq_false_2 _ Hown). simpl.
    assert ((uid, msg_id) ∈ {[(uid, msg_id)]} ∪ likes d) as Hthere.
    { rewrite elem_of_union, elem_of_singleton. tauto. }
    rewrite (bool_decide_eq_true_2 _ Hthere). simpl.
    rewrite (toggle_on_off _ _ Hout). repeat split; try done.
    by destruct d.
Qed.

Lemma like_twice_restores_witness :
  users sample_db !! 1 = Some alice ∧
  @validate_on_submit sample_env CSRFProtectForm (post true blank_form) = true ∧
  messages sample_db !! 3 = Some (mkMessage "second" 30 2) ∧
  user_id (mkMessage "second" 30 2) ≠ 1 ∧
  let r1 := @serve sample_env (route_like_message 3) (post true blank_form)
              (Some 1) sample_db in
  let r2 := @serve sample_env (route_like_message 3) (post true blank_form)
              (session_after r1) (db_after r1) in
  outcome r1 = inr (redirect "/users/1") ∧
  outcome r2 = inr (redirect "/users/1") ∧
  ((1, 3) ∈ likes (db_after r1) ↔ (1, 3) ∉ likes sample_db) ∧
  ((1, 3) ∈ likes (db_after r2) ↔ (1, 3) ∈ likes sample_db) ∧
  db_after r2 = sample_db.
Proof.
  do 3 (split; [reflexivity|]). split; [simpl; lia|].
  apply (@like_twice_restores sample_env (post true blank_form)
           (post true blank_form) 1 alice sample_db 3
           (mkMessage "second" 30 2)); try reflexivity.
  simpl; lia.
Defined.

(** ** Deleting messages and accounts *)

Lemma lookup_drop_messages P d id m :
  messages (drop_messages P d) !! id = Some m ↔
  messages d !! id = Some m ∧ P id m = false.
Proof. unfold drop_messages. simpl. by rewrite map_lookup_filter_Some. Qed.

Lemma owns_none_true id d :
  owns_none id d = true ↔ ∀ k m, messages d !! k = Some m → user_id m ≠ id.
Proof.
  unfold owns_none. rewrite forallb_forall. split.
  - intros Hall k m Hkm.
    apply elem_of_map_to_list, list_elem_of_In, Hall in Hkm.
    by apply negb_true_iff, bool_decide_eq_false in Hkm.
  - intros Hall [k m] Hin. apply list_elem_of_In, elem_of_map_to_list in Hin.
    apply negb_true_iff, bool_decide_eq_false. simpl. by eapply Hall.
Qed.

Lemma owns_none_drop_messages uid d :
  owns_none uid (drop_messages (λ _ m, bool_decide (user_id m = uid)) d) = true.
Proof.
  apply owns_none_true. intros k m Hkm.
  apply lookup_drop_messages in Hkm as [_ Hne].
  by apply bool_decide_eq_false in Hne.
Qed.

(** The two writes of [delete_user] go through together. *)
Lemma flush_delete_user uid d :
  flush [DeleteMessagesOf uid; DeleteUser uid] d =
  Some (drop_user uid
          (drop_messages (λ _ m, bool_decide (user_id m = uid)) d)).
Proof.
  cbn [flush apply_op]. by rewrite owns_none_drop_messages.
Qed.

(** Whoever is signed in, [delete_message] removes the message: the owner
    recorded in the row is never looked at. *)
Lemma delete_message_any_owner `{Collaborators} req uid u d message_id m :
  users d !! uid = Some u →
  validate_on_submit CSRFProtectForm req = true →
  messages d !! message_id = Some m →
  let r := serve (route_delete_message message_id) req (Some uid) d in
  outcome r = inr (redirect ("/users/" +:+ pretty uid)) ∧
  messages (db_after r) !! message_id = None.
Proof.
  intros Hu Hform Hm. unfold serve, view, delete_message.
  rewrite (add_user_to_g_signed_in uid u d Hu), Hform. unfold_effects.
  rewrite Hm. simpl. split; [done|].
  apply map_lookup_filter_None. right. intros m' _. simpl.
  by rewrite bool_decide_eq_true_2.
Qed.

(** C3 (the code differs): alice, signed in with a valid token, posts to
    the delete route of message 2, which bob owns; the message is removed
    and alice is redirected to her page as on success. *)
Example delete_message_of_another_account :
  let r := @serve sample_env (route_delete_message 2) (post true blank_form)
             (Some 1) sample_db in
  g_user (add_user_to_g (Some 1) sample_db) = Some (1, alice) ∧
  (user_id <$> messages sample_db !! 2) = Some 2 ∧
  outcome r = inr (redirect "/users/1") ∧
  messages (db_after r) !! 2 = None.
Proof. vm_compute. by repeat split. Qed.

(** C6: a granted self-delete ends the session and commits the removal of
    every message owned by the account together with the account row; no
    message row of the database then refers to the deleted id, and the
    messages of other accounts stay. *)
Theorem delete_user_removes_messages `{Collaborators} req uid u d :
  users d !! uid = Some u →
  validate_on_submit CSRFProtectForm req = true →
  let r := serve route_delete_user req (Some uid) d in
  outcome r = inr (redirect "/signup") ∧
  session_after r = None ∧
  users (db_after r) !! uid = None ∧
  (∀ id m, messages (db_after r) !! id = Some m → user_id m ≠ uid) ∧
  (∀ id m, messages d !! id = Some m → user_id m ≠ uid →
     messages (db_after r) !! id = Some m).
Proof.
  intros Hu Hform. unfold serve, view, delete_user.
  rewrite (add_user_to_g_signed_in uid u d Hu), Hform.
  unfold with_user, bind, ret, enqueue, commit, do_logout.
  cbn [truthy g_user negb orb store pending session flashes app].
  rewrite flush_delete_user.
  cbn [outcome db_after session_after flashed store session].
  unfold drop_user. cbn [users messages].
  repeat split; try done.
  - apply lookup_delete_eq.
  - intros id m Hm. apply lookup_drop_messages in Hm as [_ Hne].
    by apply bool_decide_eq_false in Hne.
  - intros id m Hm Hne. apply lookup_drop_messages. split; [done|].
    by apply bool_decide_eq_false.
Qed.

Lemma delete_user_removes_messages_witness :
  users sample_db !! 2 = Some bob ∧
  @validate_on_submit sample_env CSRFProtectForm (post true blank_form) = true ∧
  let r := @serve sample_env route_delete_user (post true blank_form)
             (Some 2) sample_db in
  outcome r = inr (redirect "/signup") ∧
  session_after r = None ∧
  users (db_after r) !! 2 = None ∧
  (∀ id m, messages (db_after r) !! id = Some m → user_id m ≠ 2) ∧
  (∀ id m, messages sample_db !! id = Some m → user_id m ≠ 2 →
     messages (db_after r) !! id = Some m).
Proof.
  do 2 (split; [reflexivity|]).
  apply (@delete_user_removes_messages sample_env (post true blank_form)
           2 bob sample_db); reflexivity.
Defined.

(** ** Follows *)

(** C9: when the signed-in account does not follow the account named in
    the request, the granted stop-following request ends in the uncaught
    [ValueError] of the collection removal: nothing checks for the edge
    before, and nothing is committed. *)
Theorem stop_following_missing_edge `{Collaborators} req uid u d follow_id :
  users d !! uid = Some u →
  validate_on_submit CSRFProtectForm req = true →
  (uid, follow_id) ∉ follows d →
  let r := serve (route_stop_following follow_id) req (Some uid) d in
  outcome r = inl ValueError ∧ db_after r = d ∧ session_after r = Some uid.
Proof.
  intros Hu Hform Hedge. unfold serve, view, stop_following.
  rewrite (add_user_to_g_signed_in uid u d Hu), Hform. unfold_effects.
  assert (follow_id ∉ following uid d) as Hno.
  { intros Hin. by apply elem_of_following in Hin as [Hin _]. }
  rewrite (bool_decide_eq_false_2 _ Hno), andb_false_r. simpl. done.
Qed.

Lemma stop_following_missing_edge_witness :
  users sample_db !! 2 = Some bob ∧
  @validate_on_submit sample_env CSRFProtectForm (post true blank_form) = true ∧
  ((2, 1) ∉ follows sample_db) ∧
  (let r := @serve sample_env (route_stop_following 1) (post true blank_form)
              (Some 2) sample_db in
   outcome r = inl ValueError ∧ db_after r = sample_db ∧
   session_after r = Some 2).
Proof.
  assert ((2, 1) ∉ follows sample_db) as Hedge.
  { unfold sample_db. simpl. rewrite elem_of_singleton. intros [=]. }
  do 2 (split; [reflexivity|]). split; [exact Hedge|].
  apply (@stop_following_missing_edge sample_env (post true blank_form)
           2 bob sample_db 1); [reflexivity|reflexivity|exact Hedge].
Defined.

(** ** Accounts *)

Lemma taken_true self u d :
  taken self u d = true ↔
  ∃ k v, users d !! k = Some v ∧ Some k ≠ self ∧
         (username u = username v ∨ email u = email v).
Proof.
  unfold taken, same_identity. rewrite existsb_exists. split.
  - intros [[k v] [Hin Hb]]. apply list_elem_of_In, elem_of_map_to_list in Hin.
    apply andb_true_iff in Hb as [Hself Hid]. simpl in *.
    apply negb_true_iff, bool_decide_eq_false in Hself.
    apply orb_true_iff in Hid. rewrite !bool_decide_eq_true in Hid.
    by exists k, v.
  - intros (k & v & Hkv & Hself & Hid). exists (k, v). split.
    + by apply list_elem_of_In, elem_of_map_to_list.
    + apply andb_true_iff. simpl. split.
      * by apply negb_true_iff, bool_decide_eq_false.
      * apply orb_true_iff. by rewrite !bool_decide_eq_true.
Qed.

(** C8: a valid signup submission whose username or email is already on
    some account row: flushing the new row is refused by the store, the
    handler catches the error, flashes the generic message and shows the
    form again; the database is as before and nobody is signed in. *)
Theorem signup_duplicate_rejected `{Collaborators} req sess d k v :
  validate_on_submit UserAddForm req = true →
  users d !! k = Some v →
  username v = f_username (form_data req) ∨ email v = f_email (form_data req) →
  flush [InsertUser (signup_row (form_data req))] d = None ∧
  serve route_signup req sess d =
    mkResult (inr (render_template "users/signup.html" [])) d None
             [("Username/Email must be unique", "danger")].
Proof.
  intros Hform Hkv Hdup.
  assert (taken None (signup_row (form_data req)) d = true) as Htaken.
  { apply taken_true. exists k, v. split; [done|]. split; [done|].
    unfold signup_row. simpl. destruct Hdup as [<-|<-]; auto. }
  split.
  - simpl. by rewrite Htaken.
  - unfold serve, view, signup. rewrite Hform. unfold_effects.
    fold (signup_row (form_data req)). by rewrite Htaken.
Qed.

Lemma signup_duplicate_rejected_witness :
  let req := post true (mkFormData "bob" "pw" "robert@example.com" "" "" "" "") in
  @validate_on_submit sample_env UserAddForm req = true ∧
  users sample_db !! 2 = Some bob ∧
  (username bob = f_username (form_data req) ∨
   email bob = f_email (form_data req)) ∧
  flush [InsertUser (@signup_row sample_env (form_data req))] sample_db = None ∧
  @serve sample_env route_signup req (Some 1) sample_db =
    mkResult (inr (render_template "users/signup.html" [])) sample_db None
             [("Username/Email must be unique", "danger")].
Proof.
  split; [reflexivity|]. split; [reflexivity|]. split; [left; reflexivity|].
  apply (@signup_duplicate_rejected sample_env
           (post true (mkFormData "bob" "pw" "robert@example.com" "" "" "" ""))
           (Some 1) sample_db 2 bob);
    [reflexivity|reflexivity|left; reflexivity].
Defined.

(** C10: whatever the request and whoever was signed in, [signup] leaves
    no one signed in unless it creates an account.  A GET, a submission
    that does not validate and a submission refused for uniqueness all end
    with an empty session, the form shown and the database as before; only
    a created account is signed in, and it is the new one. *)
Theorem signup_ends_session `{Collaborators} req sess d :
  let r := serve route_signup req sess d in
  let shown_again :=
    outcome r = inr (render_template "users/signup.html" []) ∧
    session_after r = None ∧ db_after r = d in
  (method req = GET → shown_again) ∧
  (validate_on_submit UserAddForm req = false → shown_again) ∧
  (taken None (signup_row (form_data req)) d = true → shown_again) ∧
  (shown_again ∨
   outcome r = inr (redirect "/") ∧
   session_after r = Some (S (users_seq d)) ∧
   users (db_after r) =
     <[S (users_seq d) := signup_row (form_data req)]> (users d)).
Proof.
  unfold serve, view, signup.
  assert (method req = GET → validate_on_submit UserAddForm req = false)
    as Hget.
  { intros Hm. unfold validate_on_submit, is_submitted. by rewrite Hm. }
  destruct (validate_on_submit UserAddForm req) eqn:Hform; unfold_effects;
    fold (signup_row (form_data req)).
  - destruct (taken None (signup_row (form_data req)) d) eqn:Htaken; simpl.
    + repeat split; auto.
    + split; [intros Hm; by apply Hget in Hm|].
      split; [done|]. split; [done|]. right. done.
  - repeat split; auto.
Qed.

(** C7: in a profile-edit request of a signed-in account, when the
    password sent with the form does not authenticate the account, the
    database is left as it was and a valid submission is answered with the
    form and the flashed "Incorrect password"; so a changed database means
    a validated form and a successful re-authentication. *)
Theorem profile_requires_password `{Collaborators} req uid u d :
  users d !! uid = Some u →
  let r := serve route_profile req (Some uid) d in
  let reauth :=
    User_authenticate (username u) (f_password (form_data req)) d in
  (reauth = None →
     db_after r = d ∧ session_after r = Some uid ∧
     (validate_on_submit UserEditForm req = true →
        outcome r = inr (render_template "users/edit.html" []) ∧
        flashed r = [("Incorrect password", "danger")])) ∧
  (db_after r ≠ d →
     is_Some reauth ∧ validate_on_submit UserEditForm req = true).
Proof.
  intros Hu. unfold serve, view, profile.
  rewrite (add_user_to_g_signed_in uid u d Hu). simpl.
  destruct (validate_on_submit UserEditForm req) eqn:Hform; unfold_effects.
  - destruct (User_authenticate (username u) (f_password (form_data req)) d)
      as [acct|] eqn:Hauth; simpl.
    + split; [done|]. intros _. split; [by eexists|done].
    + split; [done|]. intros Hchg. by destruct Hchg.
  - split; [done|]. intros Hchg. by destruct Hchg.
Qed.

Lemma profile_requires_password_witness :
  let req := post true (mkFormData "alicia" "guess" "a@example.com" "" "" "" "") in
  users sample_db !! 1 = Some alice ∧
  let r := @serve sample_env route_profile req (Some 1) sample_db in
  let reauth :=
    @User_authenticate sample_env (username alice) (f_password (form_data req))
      sample_db in
  (reauth = None →
     db_after r = sample_db ∧ session_after r = Some 1 ∧
     (@validate_on_submit sample_env UserEditForm req = true →
        outcome r = inr (render_template "users/edit.html" []) ∧
        flashed r = [("Incorrect password", "danger")])) ∧
  (db_after r ≠ sample_db →
     is_Some reauth ∧ @validate_on_submit sample_env UserEditForm req = true).
Proof.
  split; [reflexivity|].
  apply (@profile_requires_password sample_env
           (post true (mkFormData "alicia" "guess" "a@example.com" "" "" "" ""))
           1 alice sample_db).
  reflexivity.
Defined.

(** With the right password the same form is applied: the model's update
    path is live. *)
Example profile_update_sample :
  let req := post true (mkFormData "alicia" "wonderland" "a@example.com"
                          "" "" "hi" "") in
  let r := @serve sample_env route_profile req (Some 1) sample_db in
  outcome r = inr (redirect "/users/1") ∧
  users (db_after r) !! 1 =
    Some (mkUser "alicia" "a@example.com" "$2b$wonderland"
            "/static/images/default-pic.png" "/static/images/warbler-hero.jpg"
            "hi" "").
Proof. vm_compute. by split. Qed.

(** ** The authorization gate *)

(** C4 as stated fails: bob is signed in and submits the compose form with
    an invalid token; the form is shown again, nothing is flashed, and the
    answer is not the "access unauthorized" one. *)
Lemma add_message_bad_token_not_unauthorized :
  ¬ (∀ req sess d,
       g_user (add_user_to_g sess d) = None ∨ csrf_token_ok req = false →
       @serve sample_env route_add_message req sess d =
         access_unauthorized sess d).
Proof.
  intros Hall.
  specialize (Hall (post false (mkFormData "" "" "" "" "" "" "hi"))
                (Some 2) sample_db (or_intror eq_refl)).
  vm_compute in Hall. discriminate Hall.
Qed.

(** C4, amended: let the session carry no account or the token be invalid.
    A route guarded by the token-only form answers with the one "access
    unauthorized" outcome, database and session untouched, for either
    cause.  The compose and profile routes answer so when no account is
    signed in; with an account and a bad token they show their form again,
    flash nothing and leave the database untouched.  On the routes without
    an account check, a bad token still means no change to the database. *)
Theorem gate_denies `{Collaborators} r req sess d :
  g_user (add_user_to_g sess d) = None ∨ csrf_token_ok req = false →
  let res := serve r req sess d in
  match gate_of r with
  | token_gate => res = access_unauthorized sess d
  | form_gate template =>
      if truthy (g_user (add_user_to_g sess d))
      then res = mkResult (inr (render_template template [])) d sess []
      else res = access_unauthorized sess d
  | ungated => csrf_token_ok req = false → db_after res = d
  end.
Proof.
  intros Hden. unfold serve.
  destruct (g_user (add_user_to_g sess d)) as [[uid u]|] eqn:Hg.
  - destruct Hden as [Hnone|Htok]; [discriminate|].
    pose proof (λ F, validate_csrf_token F req Htok) as Hform.
    destruct r; simpl;
      unfold demo, signup, login, logout, start_following, stop_following,
        profile, delete_user, add_message, like_message, delete_message,
        homepage;
      rewrite ?Hform, ?Hg; simpl; try reflexivity; intros _; unfold_effects.
    by destruct (User_authenticate "guest" "password" d) as [[? ?]|].
  - clear Hden.
    destruct r; simpl;
      unfold demo, signup, login, logout, start_following, stop_following,
        profile, delete_user, add_message, like_message, delete_message,
        homepage;
      rewrite ?Hg; simpl; rewrite ?orb_true_r; try reflexivity;
      intros Htok; rewrite ?(validate_csrf_token _ req Htok);
      unfold_effects; try done.
    by destruct (User_authenticate "guest" "password" d) as [[? ?]|].
Qed.

Lemma gate_denies_witness :
  (g_user (add_user_to_g (Some 1) sample_db) = None ∨
   csrf_token_ok (post false blank_form) = false) ∧
  @serve sample_env (route_like_message 2) (post false blank_form)
    (Some 1) sample_db = access_unauthorized (Some 1) sample_db.
Proof.
  split; [right; reflexivity|].
  apply (@gate_denies sample_env (route_like_message 2)
           (post false blank_form) (Some 1) sample_db).
  right. reflexivity.
Defined.

(** * Further properties of the handlers *)

(** ** More on the home feed *)

Lemma feed_candidate ids d id m :
  messages d !! id = Some m → user_id m ∈ ids →
  (id, m) ∈ feed ids d ∨
  (length (feed ids d) = 100 ∧
   ∀ k s, (k, s) ∈ feed ids d → timestamp m ≤ timestamp s).
Proof.
  intros Hm Hown. unfold feed.
  set (sorted := merge_sort newer_first
         (filter (λ kv : nat * Message, user_id kv.2 ∈ ids)
                 (map_to_list (messages d)))).
  assert ((id, m) ∈ sorted) as Hin.
  { unfold sorted. rewrite merge_sort_Permutation.
    apply list_elem_of_filter. split; [done|]. by apply elem_of_map_to_list. }
  assert (StronglySorted newer_first (take 100 sorted ++ drop 100 sorted))
    as Hsorted.
  { rewrite take_drop. apply StronglySorted_merge_sort; apply _. }
  rewrite <- (take_drop 100 sorted) in Hin.
  apply elem_of_app in Hin as [Hshown|Hcut]; [by left|right]. split.
  - apply length_take_le. destruct (decide (100 ≤ length sorted)); [done|].
    rewrite drop_ge in Hcut by lia. by apply elem_of_nil in Hcut.
  - intros k s Hs.
    exact (StronglySorted_app_1_elem_of newer_first _ _ (k, s) (id, m)
             Hsorted Hs Hcut).
Qed.

Lemma feed_NoDup ids d : NoDup (feed ids d).*1.
Proof.
  assert (∀ l1 l2 : list (nat * Message),
            l1 `sublist_of` l2 → NoDup l2.*1 → NoDup l1.*1) as Hsub.
  { intros l1 l2 Hl Hdup. eapply sublist_NoDup; [exact Hdup|].
    by apply fmap_sublist. }
  unfold feed. eapply Hsub; [apply sublist_take|].
  rewrite merge_sort_Permutation.
  eapply Hsub; [apply sublist_filter|]. apply NoDup_fst_map_to_list.
Qed.

(** X1: the home page shows the most recent qualifying messages.  A stored
    message of the viewer, or of a followed account that still has a row,
    is shown unless the page is full with 100 messages none of which is
    older than it. *)
Theorem homepage_most_recent `{Collaborators} req uid u d id m :
  users d !! uid = Some u →
  messages d !! id = Some m →
  user_id m = uid ∨
    ((uid, user_id m) ∈ follows d ∧ is_Some (users d !! user_id m)) →
  ∃ shown,
    outcome (serve route_homepage req (Some uid) d) =
      inr (render_template "home.html" shown) ∧
    ((id, m) ∈ shown ∨
     (length shown = 100 ∧
      ∀ k s, (k, s) ∈ shown → timestamp m ≤ timestamp s)).
Proof.
  intros Hu Hm Hown. unfold serve, view, homepage.
  rewrite (add_user_to_g_signed_in uid u d Hu). unfold_effects.
  eexists. split; [reflexivity|]. apply feed_candidate; [done|].
  apply elem_of_app. destruct Hown as [Hself|Hfollowed].
  - right. by apply list_elem_of_singleton.
  - left. by apply elem_of_following.
Qed.

Lemma homepage_most_recent_witness :
  users sample_db !! 1 = Some alice ∧
  messages sample_db !! 3 = Some (mkMessage "second" 30 2) ∧
  (user_id (mkMessage "second" 30 2) = 1 ∨
   ((1, user_id (mkMessage "second" 30 2)) ∈ follows sample_db ∧
    is_Some (users sample_db !! user_id (mkMessage "second" 30 2)))) ∧
  ∃ shown,
    outcome (@serve sample_env route_homepage
               (mkRequest GET false blank_form "" 40) (Some 1) sample_db) =
      inr (render_template "home.html" shown) ∧
    ((3, mkMessage "second" 30 2) ∈ shown ∨
     (length shown = 100 ∧
      ∀ k s, (k, s) ∈ shown →
             timestamp (mkMessage "second" 30 2) ≤ timestamp s)).
Proof.
  assert ((1, 2) ∈ follows sample_db ∧ is_Some (users sample_db !! 2))
    as Hfollowed.
  { split; [|by exists bob].
    unfold sample_db. simpl. rewrite elem_of_singleton. reflexivity. }
  split; [reflexivity|]. split; [reflexivity|]. split; [by right|].
  apply (@homepage_most_recent sample_env
           (mkRequest GET false blank_form "" 40) 1 alice sample_db 3
           (mkMessage "second" 30 2)); [reflexivity|reflexivity|by right].
Defined.

(** X2: no message is shown twice on the home page. *)
Theorem homepage_no_duplicates `{Collaborators} req uid u d :
  users d !! uid = Some u →
  ∃ shown,
    outcome (serve route_homepage req (Some uid) d) =
      inr (render_template "home.html" shown) ∧
    NoDup shown.*1.
Proof.
  intros Hu. unfold serve, view, homepage.
  rewrite (add_user_to_g_signed_in uid u d Hu). unfold_effects.
  eexists. split; [reflexivity|]. apply feed_NoDup.
Qed.

Lemma homepage_no_duplicates_witness :
  users sample_db !! 1 = Some alice ∧
  ∃ shown,
    outcome (@serve sample_env route_homepage
               (mkRequest GET false blank_form "" 40) (Some 1) sample_db) =
      inr (render_template "home.html" shown) ∧
    NoDup shown.*1.
Proof.
  split; [reflexivity|].
  apply (@homepage_no_duplicates sample_env
           (mkRequest GET false blank_form "" 40) 1 alice sample_db).
  reflexivity.
Defined.

(** ** Signing in *)

Lemma User_authenticate_Some `{Collaborators} name pwd d k u :
  User_authenticate name pwd d = Some (k, u) →
  users d !! k = Some u ∧ username u = name ∧
  check_password_hash (password u) pwd = true.
Proof.
  unfold User_authenticate.
  destruct (List.find _ _) as [[k' u']|] eqn:Hfind; [|done].
  apply find_some in Hfind as [Hin Hname].
  apply list_elem_of_In, elem_of_map_to_list in Hin.
  apply bool_decide_eq_true in Hname. simpl in Hname.
  destruct (check_password_hash (password u') pwd) eqn:Hpwd; [|done].
  intros [= <- <-]. done.
Qed.

Lemma User_authenticate_None `{Collaborators} name pwd d :
  (∀ k u, users d !! k = Some u → username u = name →
          check_password_hash (password u) pwd = false) →
  User_authenticate name pwd d = None.
Proof.
  intros Hall. destruct (User_authenticate name pwd d) as [[k u]|] eqn:Hauth;
    [|done].
  apply User_authenticate_Some in Hauth as (Hku & Hname & Hpwd).
  rewrite (Hall k u Hku Hname) in Hpwd. done.
Qed.

(** Once a row is inserted whose username no other row has, the username
    and a password that its hash accepts authenticate as that row. *)
Lemma User_authenticate_inserted `{Collaborators} d k row pwd d' :
  taken None row d = false →
  users d' = <[k := row]> (users d) →
  check_password_hash (password row) pwd = true →
  User_authenticate (username row) pwd d' = Some (k, row).
Proof.
  intros Hfree Hd' Hpwd. unfold User_authenticate.
  destruct (List.find _ _) as [[k' u']|] eqn:Hfind.
  - apply find_some in Hfind as [Hin Hname].
    apply list_elem_of_In, elem_of_map_to_list in Hin.
    apply bool_decide_eq_true in Hname. simpl in Hname.
    rewrite Hd' in Hin. apply lookup_insert_Some in Hin as [[<- <-]|[Hne Hold]].
    + by rewrite Hpwd.
    + assert (taken None row d = true) as Htaken; [|congruence].
      apply taken_true. exists k', u'. split; [done|]. split; [done|].
      by left.
  - exfalso. apply find_none with (x := (k, row)) in Hfind.
    + simpl in Hfind. by rewrite bool_decide_eq_true_2 in Hfind.
    + apply list_elem_of_In, elem_of_map_to_list. rewrite Hd'.
      apply lookup_insert_eq.
Qed.

(** X3: [login] never writes to the database, and it changes the session
    only to an account whose username is the submitted one and whose stored
    hash accepts the submitted password, on a validated form. *)
Theorem login_sound `{Collaborators} req sess d :
  let r := serve route_login req sess d in
  db_after r = d ∧
  (session_after r = sess ∨
   ∃ k u,
     session_after r = Some k ∧ users d !! k = Some u ∧
     username u = f_username (form_data req) ∧
     check_password_hash (password u) (f_password (form_data req)) = true ∧
     validate_on_submit LoginForm req = true ∧
     outcome r = inr (redirect "/")).
Proof.
  unfold serve, view, login.
  destruct (validate_on_submit LoginForm req) eqn:Hform; unfold_effects;
    [|by split; [|left]].
  destruct (User_authenticate _ _ d) as [[k u]|] eqn:Hauth; simpl;
    [|by split; [|left]].
  apply User_authenticate_Some in Hauth as (Hku & Hname & Hpwd).
  split; [done|]. right. by exists k, u.
Qed.

(** X4: a validated login whose username has no row, or only rows whose
    hash rejects the password, gets one and the same answer: the form again
    with "Invalid credentials.", the session left as it was. *)
Theorem login_invalid_credentials `{Collaborators} req sess d :
  validate_on_submit LoginForm req = true →
  (∀ k u, users d !! k = Some u →
          username u = f_username (form_data req) →
          check_password_hash (password u) (f_password (form_data req))
            = false) →
  serve route_login req sess d =
    mkResult (inr (render_template "users/login.html" [])) d sess
             [("Invalid credentials.", "danger")].
Proof.
  intros Hform Hall. unfold serve, view, login. rewrite Hform.
  unfold_effects. by rewrite (User_authenticate_None _ _ d Hall).
Qed.

Lemma sample_users_inv k u :
  users sample_db !! k = Some u → (k = 1 ∧ u = alice) ∨ (k = 2 ∧ u = bob).
Proof.
  unfold sample_db. simpl. rewrite !lookup_insert_Some, lookup_empty.
  intros [[<- <-]|[_ [[<- <-]|[_ Hnone]]]]; [by left|by right|done].
Qed.

Lemma login_invalid_credentials_witness :
  let req := post true (mkFormData "alice" "rabbit" "" "" "" "" "") in
  @validate_on_submit sample_env LoginForm req = true ∧
  (∀ k u, users sample_db !! k = Some u →
          username u = f_username (form_data req) →
          @check_password_hash sample_env (password u)
            (f_password (form_data req)) = false) ∧
  @serve sample_env route_login req (Some 2) sample_db =
    mkResult (inr (render_template "users/login.html" [])) sample_db (Some 2)
             [("Invalid credentials.", "danger")].
Proof.
  assert (∀ k u, users sample_db !! k = Some u →
            username u = "alice" →
            @check_password_hash sample_env (password u) "rabbit" = false)
    as Hall.
  { intros k u Hku Hname.
    apply sample_users_inv in Hku as [[_ ->]|[_ ->]]; [reflexivity|].
    discriminate Hname. }
  split; [reflexivity|]. split; [exact Hall|].
  apply (@login_invalid_credentials sample_env
           (post true (mkFormData "alice" "rabbit" "" "" "" "" ""))
           (Some 2) sample_db); [reflexivity|exact Hall].
Defined.

(** X5: [demo] looks at neither the session nor the token.  It signs in an
    account named guest whose hash accepts "password", or else leaves the
    session alone and sends the visitor to the login page; the database is
    never written. *)
Theorem demo_guest_only `{Collaborators} req sess d :
  let r := serve route_demo req sess d in
  (∃ k u, users d !! k = Some u ∧ username u = "guest" ∧
          check_password_hash (password u) "password" = true ∧
          r = mkResult (inr (redirect "/")) d (Some k)
                       [("Hello, guest!", "success")]) ∨
  r = mkResult (inr (redirect "/login")) d sess
        [("Error with guest account. Please signup/login manually.",
          "danger")].
Proof.
  unfold serve, view, demo. unfold_effects.
  destruct (User_authenticate "guest" "password" d) as [[k u]|] eqn:Hauth;
    simpl; [left|by right].
  apply User_authenticate_Some in Hauth as (Hku & Hname & Hpwd).
  exists k, u. by rewrite Hname.
Qed.

(** X6: signing up and then logging in.  When no row has the username or
    the email of the form and the hash of the password accepts it, a valid
    signup creates the account and signs it in, and a later valid login with
    the same username and password signs in that same account, whose row
    the next request then acts as. *)
Theorem signup_then_login `{Collaborators} req req' sess sess' d :
  validate_on_submit UserAddForm req = true →
  taken None (signup_row (form_data req)) d = false →
  check_password_hash (generate_password_hash (f_password (form_data req)))
    (f_password (form_data req)) = true →
  validate_on_submit LoginForm req' = true →
  f_username (form_data req') = f_username (form_data req) →
  f_password (form_data req') = f_password (form_data req) →
  let r1 := serve route_signup req sess d in
  let r2 := serve route_login req' sess' (db_after r1) in
  outcome r1 = inr (redirect "/") ∧
  session_after r1 = Some (S (users_seq d)) ∧
  outcome r2 = inr (redirect "/") ∧
  session_after r2 = Some (S (users_seq d)) ∧
  g_user (add_user_to_g (session_after r2) (db_after r2)) =
    Some (S (users_seq d), signup_row (form_data req)).
Proof.
  intros Hform Hfree Hhash Hform' Hname Hpwd.
  assert (serve route_signup req sess d =
          mkResult (inr (redirect "/"))
            (mkDB (<[S (users_seq d) := signup_row (form_data req)]> (users d))
                  (messages d) (follows d) (likes d)
                  (S (users_seq d)) (messages_seq d))
            (Some (S (users_seq d))) []) as Hr1.
  { unfold serve, view, signup. rewrite Hform. unfold_effects.
    fold (signup_row (form_data req)). by rewrite Hfree. }
  cbv zeta. rewrite Hr1. cbn [outcome session_after db_after].
  unfold serve, view, login. rewrite Hform'. unfold_effects.
  rewrite Hname, Hpwd.
  erewrite (User_authenticate_inserted d (S (users_seq d))
              (signup_row (form_data req))); [|done|reflexivity|done].
  simpl. rewrite lookup_insert_eq. done.
Qed.

Lemma signup_then_login_witness :
  let req := post true (mkFormData "carol" "pw" "carol@example.com" "" "" "" "") in
  @validate_on_submit sample_env UserAddForm req = true ∧
  taken None (@signup_row sample_env (form_data req)) sample_db = false ∧
  @check_password_hash sample_env
    (@generate_password_hash sample_env (f_password (form_data req)))
    (f_password (form_data req)) = true ∧
  @validate_on_submit sample_env LoginForm req = true ∧
  f_username (form_data req) = f_username (form_data req) ∧
  f_password (form_data req) = f_password (form_data req) ∧
  let r1 := @serve sample_env route_signup req (Some 1) sample_db in
  let r2 := @serve sample_env route_login req None (db_after r1) in
  outcome r1 = inr (redirect "/") ∧
  session_after r1 = Some (S (users_seq sample_db)) ∧
  outcome r2 = inr (redirect "/") ∧
  session_after r2 = Some (S (users_seq sample_db)) ∧
  g_user (add_user_to_g (session_after r2) (db_after r2)) =
    Some (S (users_seq sample_db), @signup_row sample_env (form_data req)).
Proof.
  do 6 (split; [reflexivity|]).
  apply (@signup_then_login sample_env
           (post true (mkFormData "carol" "pw" "carol@example.com" "" "" "" ""))
           (post true (mkFormData "carol" "pw" "carol@example.com" "" "" "" ""))
           (Some 1) None sample_db); reflexivity.
Defined.

(** ** Following and the feed *)

Lemma homepage_signed_in `{Collaborators} req uid u d :
  users d !! uid = Some u →
  serve route_homepage req (Some uid) d =
    mkResult (inr (render_template "home.html"
                     (feed (following uid d ++ [uid]) d)))
             d (Some uid) [].
Proof.
  intros Hu. unfold serve, view, homepage.
  by rewrite (add_user_to_g_signed_in uid u d Hu).
Qed.

Lemma start_following_granted `{Collaborators} req uid u d follow_id :
  users d !! uid = Some u →
  validate_on_submit CSRFProtectForm req = true →
  is_Some (users d !! follow_id) →
  (uid, follow_id) ∉ follows d →
  serve (route_start_following follow_id) req (Some uid) d =
    mkResult (inr (redirect (referrer req)))
             (mkDB (users d) (messages d) ({[(uid, follow_id)]} ∪ follows d)
                   (likes d) (users_seq d) (messages_seq d))
             (Some uid) [].
Proof.
  intros Hu Hform [v Hv] Hedge. unfold serve, view, start_following.
  rewrite (add_user_to_g_signed_in uid u d Hu), Hform. unfold_effects.
  rewrite Hv. simpl. by rewrite (bool_decide_eq_false_2 _ Hedge).
Qed.

Lemma stop_following_granted `{Collaborators} req uid u d follow_id :
  users d !! uid = Some u →
  validate_on_submit CSRFProtectForm req = true →
  is_Some (users d !! follow_id) →
  (uid, follow_id) ∈ follows d →
  serve (route_stop_following follow_id) req (Some uid) d =
    mkResult (inr (redirect (referrer req)))
             (mkDB (users d) (messages d) (follows d ∖ {[(uid, follow_id)]})
                   (likes d) (users_seq d) (messages_seq d))
             (Some uid) [].
Proof.
  intros Hu Hform Hv Hedge. unfold serve, view, stop_following.
  rewrite (add_user_to_g_signed_in uid u d Hu), Hform. unfold_effects.
  assert (follow_id ∈ following uid d) as Hin by by apply elem_of_following.
  rewrite (bool_decide_eq_true_2 _ Hin). destruct Hv as [v Hv]. rewrite Hv.
  done.
Qed.

(** X7: a granted follow of an existing account that is not yet followed
    stores exactly the edge (follower, followee) and touches nothing else.
    Nothing compares the two ids: the account may follow itself. *)
Theorem start_following_adds_edge `{Collaborators} req uid u d follow_id :
  users d !! uid = Some u →
  validate_on_submit CSRFProtectForm req = true →
  is_Some (users d !! follow_id) →
  (uid, follow_id) ∉ follows d →
  let r := serve (route_start_following follow_id) req (Some uid) d in
  outcome r = inr (redirect (referrer req)) ∧
  (∀ e, e ∈ follows (db_after r) ↔ e = (uid, follow_id) ∨ e ∈ follows d) ∧
  users (db_after r) = users d ∧ messages (db_after r) = messages d ∧
  likes (db_after r) = likes d ∧ session_after r = Some uid.
Proof.
  intros Hu Hform Hv Hedge. cbv zeta.
  rewrite (start_following_granted req uid u d follow_id Hu Hform Hv Hedge).
  simpl. repeat split; try done.
  - rewrite elem_of_union, elem_of_singleton. tauto.
  - rewrite elem_of_union, elem_of_singleton. tauto.
Qed.

Lemma start_following_adds_edge_witness :
  users sample_db !! 2 = Some bob ∧
  @validate_on_submit sample_env CSRFProtectForm (post true blank_form) = true ∧
  is_Some (users sample_db !! 2) ∧
  ((2, 2) ∉ follows sample_db) ∧
  (let r := @serve sample_env (route_start_following 2) (post true blank_form)
              (Some 2) sample_db in
   outcome r = inr (redirect (referrer (post true blank_form))) ∧
   (∀ e, e ∈ follows (db_after r) ↔ e = (2, 2) ∨ e ∈ follows sample_db) ∧
   users (db_after r) = users sample_db ∧
   messages (db_after r) = messages sample_db ∧
   likes (db_after r) = likes sample_db ∧ session_after r = Some 2).
Proof.
  assert ((2, 2) ∉ follows sample_db) as Hedge.
  { unfold sample_db. simpl. rewrite elem_of_singleton. intros [=]. }
  split; [reflexivity|]. split; [reflexivity|]. split; [by exists bob|].
  split; [exact Hedge|].
  apply (@start_following_adds_edge sample_env (post true blank_form)
           2 bob sample_db 2);
    [reflexivity|reflexivity|by exists bob|exact Hedge].
Defined.

(** X8: following and then unfollowing the same account, both granted,
    leaves the database exactly as it was before the two requests. *)
Theorem follow_then_unfollow `{Collaborators} req1 req2 uid u d follow_id :
  users d !! uid = Some u →
  validate_on_submit CSRFProtectForm req1 = true →
  validate_on_submit CSRFProtectForm req2 = true →
  is_Some (users d !! follow_id) →
  (uid, follow_id) ∉ follows d →
  let r1 := serve (route_start_following follow_id) req1 (Some uid) d in
  let r2 := serve (route_stop_following follow_id) req2
              (session_after r1) (db_after r1) in
  outcome r2 = inr (redirect (referrer req2)) ∧ db_after r2 = d.
Proof.
  intros Hu Hform1 Hform2 Hv Hedge. cbv zeta.
  rewrite (start_following_granted req1 uid u d follow_id Hu Hform1 Hv Hedge).
  cbn [session_after db_after].
  rewrite (stop_following_granted req2 uid u _ follow_id); simpl; try done.
  - rewrite (toggle_on_off _ _ Hedge). split; [done|]. by destruct d.
  - rewrite elem_of_union, elem_of_singleton. tauto.
Qed.

Lemma follow_then_unfollow_witness :
  users sample_db !! 2 = Some bob ∧
  @validate_on_submit sample_env CSRFProtectForm (post true blank_form) = true ∧
  is_Some (users sample_db !! 1) ∧
  ((2, 1) ∉ follows sample_db) ∧
  (let r1 := @serve sample_env (route_start_following 1) (post true blank_form)
               (Some 2) sample_db in
   let r2 := @serve sample_env (route_stop_following 1) (post true blank_form)
               (session_after r1) (db_after r1) in
   outcome r2 = inr (redirect (referrer (post true blank_form))) ∧
   db_after r2 = sample_db).
Proof.
  assert ((2, 1) ∉ follows sample_db) as Hedge.
  { unfold sample_db. simpl. rewrite elem_of_singleton. intros [=]. }
  split; [reflexivity|]. split; [reflexivity|]. split; [by exists alice|].
  split; [exact Hedge|].
  apply (@follow_then_unfollow sample_env (post true blank_form)
           (post true blank_form) 2 bob sample_db 1);
    [reflexivity|reflexivity|reflexivity|by exists alice|exact Hedge].
Defined.

(** X9: after a granted unfollow of another account, the viewer's home
    page shows no message owned by that account. *)
Theorem unfollow_hides_messages `{Collaborators} req1 req2 uid u d follow_id :
  users d !! uid = Some u →
  validate_on_submit CSRFProtectForm req1 = true →
  is_Some (users d !! follow_id) →
  (uid, follow_id) ∈ follows d →
  follow_id ≠ uid →
  let r1 := serve (route_stop_following follow_id) req1 (Some uid) d in
  let r2 := serve route_homepage req2 (session_after r1) (db_after r1) in
  ∃ shown,
    outcome r2 = inr (render_template "home.html" shown) ∧
    ∀ id m, (id, m) ∈ shown → user_id m ≠ follow_id.
Proof.
  intros Hu Hform Hv Hedge Hother. cbv zeta.
  rewrite (stop_following_granted req1 uid u d follow_id Hu Hform Hv Hedge).
  cbn [session_after db_after].
  rewrite (homepage_signed_in req2 uid u); [|done].
  eexists. split; [reflexivity|]. intros id m Hin Hown.
  apply elem_of_feed in Hin as [_ Hids].
  apply elem_of_app in Hids as [Hfollowed|Hself].
  - apply elem_of_following in Hfollowed as [Hgone _]. simpl in Hgone.
    rewrite Hown in Hgone.
    apply elem_of_difference in Hgone as [_ Hgone].
    apply Hgone. by apply elem_of_singleton.
  - apply list_elem_of_singleton in Hself. congruence.
Qed.

Lemma unfollow_hides_messages_witness :
  users sample_db !! 1 = Some alice ∧
  @validate_on_submit sample_env CSRFProtectForm (post true blank_form) = true ∧
  is_Some (users sample_db !! 2) ∧
  (1, 2) ∈ follows sample_db ∧
  2 ≠ 1 ∧
  (let r1 := @serve sample_env (route_stop_following 2) (post true blank_form)
               (Some 1) sample_db in
   let r2 := @serve sample_env route_homepage
               (mkRequest GET false blank_form "" 41)
               (session_after r1) (db_after r1) in
   ∃ shown,
     outcome r2 = inr (render_template "home.html" shown) ∧
     ∀ id m, (id, m) ∈ shown → user_id m ≠ 2).
Proof.
  assert ((1, 2) ∈ follows sample_db) as Hedge.
  { unfold sample_db. simpl. rewrite elem_of_singleton. reflexivity. }
  split; [reflexivity|]. split; [reflexivity|]. split; [by exists bob|].
  split; [exact Hedge|]. split; [lia|].
  apply (@unfollow_hides_messages sample_env (post true blank_form)
           (mkRequest GET false blank_form "" 41) 1 alice sample_db 2);
    [reflexivity|reflexivity|by exists bob|exact Hedge|lia].
Defined.

(** X10: after a granted follow, each stored message of the followed
    account is on the follower's home page, unless the page is full with
    100 messages none of which is older. *)
Theorem follow_shows_messages `{Collaborators} req1 req2 uid u d follow_id id m :
  users d !! uid = Some u →
  validate_on_submit CSRFProtectForm req1 = true →
  is_Some (users d !! follow_id) →
  (uid, follow_id) ∉ follows d →
  messages d !! id = Some m →
  user_id m = follow_id →
  let r1 := serve (route_start_following follow_id) req1 (Some uid) d in
  let r2 := serve route_homepage req2 (session_after r1) (db_after r1) in
  ∃ shown,
    outcome r2 = inr (render_template "home.html" shown) ∧
    ((id, m) ∈ shown ∨
     (length shown = 100 ∧
      ∀ k s, (k, s) ∈ shown → timestamp m ≤ timestamp s)).
Proof.
  intros Hu Hform Hv Hedge Hm Hown. cbv zeta.
  rewrite (start_following_granted req1 uid u d follow_id Hu Hform Hv Hedge).
  cbn [session_after db_after].
  rewrite (homepage_signed_in req2 uid u); [|done].
  eexists. split; [reflexivity|]. apply feed_candidate; [done|].
  apply elem_of_app. left. apply elem_of_following. simpl.
  rewrite Hown. split; [|done].
  rewrite elem_of_union, elem_of_singleton. by left.
Qed.

Lemma follow_shows_messages_witness :
  users sample_db !! 2 = Some bob ∧
  @validate_on_submit sample_env CSRFProtectForm (post true blank_form) = true ∧
  is_Some (users sample_db !! 1) ∧
  ((2, 1) ∉ follows sample_db) ∧
  messages sample_db !! 1 = Some (mkMessage "hello" 10 1) ∧
  user_id (mkMessage "hello" 10 1) = 1 ∧
  (let r1 := @serve sample_env (route_start_following 1) (post true blank_form)
               (Some 2) sample_db in
   let r2 := @serve sample_env route_homepage
               (mkRequest GET false blank_form "" 41)
               (session_after r1) (db_after r1) in
   ∃ shown,
     outcome r2 = inr (render_template "home.html" shown) ∧
     ((1, mkMessage "hello" 10 1) ∈ shown ∨
      (length shown = 100 ∧
       ∀ k s, (k, s) ∈ shown →
              timestamp (mkMessage "hello" 10 1) ≤ timestamp s))).
Proof.
  assert ((2, 1) ∉ follows sample_db) as Hedge.
  { unfold sample_db. simpl. rewrite elem_of_singleton. intros [=]. }
  split; [reflexivity|]. split; [reflexivity|]. split; [by exists alice|].
  split; [exact Hedge|]. split; [reflexivity|]. split; [reflexivity|].
  apply (@follow_shows_messages sample_env (post true blank_form)
           (mkRequest GET false blank_form "" 41) 2 bob sample_db 1 1
           (mkMessage "hello" 10 1));
    [reflexivity|reflexivity|by exists alice|exact Hedge
    |reflexivity|reflexivity].
Defined.

(** ** Messages *)

Lemma feed_newest_first ids d id m :
  messages d !! id = Some m → user_id m ∈ ids →
  (∀ k s, messages d !! k = Some s → k ≠ id → timestamp s < timestamp m) →
  ∃ rest, feed ids d = (id, m) :: rest.
Proof.
  intros Hm Hown Hnewest. unfold feed.
  set (cand := filter (λ kv : nat * Message, user_id kv.2 ∈ ids)
                      (map_to_list (messages d))).
  assert (StronglySorted newer_first (merge_sort newer_first cand)) as Hsorted
    by (apply StronglySorted_merge_sort; apply _).
  assert (∀ kv, kv ∈ merge_sort newer_first cand →
                messages d !! kv.1 = Some kv.2) as Hstored.
  { intros [k s] Hin. rewrite merge_sort_Permutation in Hin.
    apply list_elem_of_filter in Hin as [_ Hin].
    by apply elem_of_map_to_list in Hin. }
  assert ((id, m) ∈ merge_sort newer_first cand) as Hin.
  { rewrite merge_sort_Permutation. apply list_elem_of_filter.
    split; [done|]. by apply elem_of_map_to_list. }
  destruct (merge_sort newer_first cand) as [|[k s] rest].
  - by apply elem_of_nil in Hin.
  - exists (take 99 rest). simpl. f_equal.
    apply elem_of_cons in Hin as [Hhead|Htail]; [done|].
    apply StronglySorted_inv in Hsorted as [_ Hfirst].
    rewrite Forall_forall in Hfirst. apply Hfirst in Htail.
    unfold newer_first in Htail. simpl in Htail.
    pose proof (Hstored (k, s) ltac:(left)) as Hks. simpl in Hks.
    destruct (decide (k = id)) as [->|Hne].
    + congruence.
    + apply Hnewest in Hks; [lia|done].
Qed.

Lemma delete_message_granted `{Collaborators} req uid u d message_id m :
  users d !! uid = Some u →
  validate_on_submit CSRFProtectForm req = true →
  messages d !! message_id = Some m →
  serve (route_delete_message message_id) req (Some uid) d =
    mkResult (inr (redirect ("/users/" +:+ pretty uid)))
             (drop_messages (λ k _, bool_decide (k = message_id)) d)
             (Some uid) [].
Proof.
  intros Hu Hform Hm. unfold serve, view, delete_message.
  rewrite (add_user_to_g_signed_in uid u d Hu), Hform. unfold_effects.
  by rewrite Hm.
Qed.

Lemma add_message_granted `{Collaborators} req uid u d :
  users d !! uid = Some u →
  validate_on_submit MessageForm req = true →
  serve route_add_message req (Some uid) d =
    mkResult (inr (redirect ("/users/" +:+ pretty uid)))
             (mkDB (users d)
                   (<[S (messages_seq d) :=
                        mkMessage (f_text (form_data req)) (now req) uid]>
                      (messages d))
                   (follows d) (likes d) (users_seq d) (S (messages_seq d)))
             (Some uid) [].
Proof.
  intros Hu Hform. unfold serve, view, add_message.
  rewrite (add_user_to_g_signed_in uid u d Hu), Hform. unfold_effects.
  by rewrite bool_decide_eq_true_2 by by exists u.
Qed.

(** X11: a granted request that names a row that does not exist is answered
    with NotFound and commits nothing: a like or a delete of an unknown
    message id, a follow of an unknown account id. *)
Theorem missing_row_not_found `{Collaborators} req uid u d id :
  users d !! uid = Some u →
  validate_on_submit CSRFProtectForm req = true →
  (messages d !! id = None →
     serve (route_like_message id) req (Some uid) d =
       mkResult (inl NotFound) d (Some uid) [] ∧
     serve (route_delete_message id) req (Some uid) d =
       mkResult (inl NotFound) d (Some uid) []) ∧
  (users d !! id = None →
     serve (route_start_following id) req (Some uid) d =
       mkResult (inl NotFound) d (Some uid) []).
Proof.
  intros Hu Hform. split.
  - intros Hnone. unfold serve, view, like_message, delete_message.
    rewrite (add_user_to_g_signed_in uid u d Hu), Hform. unfold_effects.
    by rewrite Hnone.
  - intros Hnone. unfold serve, view, start_following.
    rewrite (add_user_to_g_signed_in uid u d Hu), Hform. unfold_effects.
    by rewrite Hnone.
Qed.

Lemma missing_row_not_found_witness :
  users sample_db !! 1 = Some alice ∧
  @validate_on_submit sample_env CSRFProtectForm (post true blank_form) = true ∧
  (messages sample_db !! 9 = None →
     @serve sample_env (route_like_message 9) (post true blank_form)
       (Some 1) sample_db = mkResult (inl NotFound) sample_db (Some 1) [] ∧
     @serve sample_env (route_delete_message 9) (post true blank_form)
       (Some 1) sample_db = mkResult (inl NotFound) sample_db (Some 1) []) ∧
  (users sample_db !! 9 = None →
     @serve sample_env (route_start_following 9) (post true blank_form)
       (Some 1) sample_db = mkResult (inl NotFound) sample_db (Some 1) []).
Proof.
  split; [reflexivity|]. split; [reflexivity|].
  apply (@missing_row_not_found sample_env (post true blank_form)
           1 alice sample_db 9); reflexivity.
Defined.

(** X12: a granted delete of an existing message removes that row and the
    likes on it, and nothing else: the other messages, the other likes, the
    accounts and the follow edges stay. *)
Theorem delete_message_only_that `{Collaborators} req uid u d message_id m :
  users d !! uid = Some u →
  validate_on_submit CSRFProtectForm req = true →
  messages d !! message_id = Some m →
  let r := serve (route_delete_message message_id) req (Some uid) d in
  messages (db_after r) = delete message_id (messages d) ∧
  (∀ e, e ∈ likes (db_after r) ↔ e ∈ likes d ∧ e.2 ≠ message_id) ∧
  users (db_after r) = users d ∧ follows (db_after r) = follows d ∧
  session_after r = Some uid.
Proof.
  intros Hu Hform Hm. cbv zeta.
  rewrite (delete_message_granted req uid u d message_id m Hu Hform Hm).
  simpl. split; [|split; [|done]].
  - apply map_eq. intros k. destruct (decide (k = message_id)) as [->|Hne].
    + rewrite lookup_delete_eq. apply map_lookup_filter_None. right.
      intros m' _. simpl. by rewrite bool_decide_eq_true_2.
    + rewrite lookup_delete_ne by done. apply option_eq. intros m'.
      rewrite map_lookup_filter_Some. simpl.
      rewrite bool_decide_eq_false. tauto.
  - intros e. rewrite elem_of_filter. split; intros [Ha Hb]; split; try done.
    + intros Heq. rewrite Heq in Ha.
      apply map_lookup_filter_None in Ha as [Ha|Ha]; [congruence|].
      apply (Ha m Hm). simpl. by rewrite bool_decide_eq_true_2.
    + apply map_lookup_filter_None. right. intros m' _. simpl.
      by rewrite bool_decide_eq_false_2.
Qed.

Lemma delete_message_only_that_witness :
  users sample_db !! 2 = Some bob ∧
  @validate_on_submit sample_env CSRFProtectForm (post true blank_form) = true ∧
  messages sample_db !! 2 = Some (mkMessage "first" 20 2) ∧
  let r := @serve sample_env (route_delete_message 2) (post true blank_form)
             (Some 2) sample_db in
  messages (db_after r) = delete 2 (messages sample_db) ∧
  (∀ e, e ∈ likes (db_after r) ↔ e ∈ likes sample_db ∧ e.2 ≠ 2) ∧
  users (db_after r) = users sample_db ∧
  follows (db_after r) = follows sample_db ∧
  session_after r = Some 2.
Proof.
  do 3 (split; [reflexivity|]).
  apply (@delete_message_only_that sample_env (post true blank_form)
           2 bob sample_db 2 (mkMessage "first" 20 2)); reflexivity.
Defined.

(** X13: a message composed with a valid form is stored under the acting
    account, with the form's text and the time of the request; when that
    time is later than every stored timestamp, the author's home page then
    starts with the new message. *)
Theorem add_message_tops_feed `{Collaborators} req1 req2 uid u d :
  users d !! uid = Some u →
  validate_on_submit MessageForm req1 = true →
  (∀ id m, messages d !! id = Some m → timestamp m < now req1) →
  let r1 := serve route_add_message req1 (Some uid) d in
  let r2 := serve route_homepage req2 (session_after r1) (db_after r1) in
  let msg := mkMessage (f_text (form_data req1)) (now req1) uid in
  outcome r1 = inr (redirect ("/users/" +:+ pretty uid)) ∧
  messages (db_after r1) !! S (messages_seq d) = Some msg ∧
  ∃ rest,
    outcome r2 =
      inr (render_template "home.html" ((S (messages_seq d), msg) :: rest)).
Proof.
  intros Hu Hform Hlater. cbv zeta.
  rewrite (add_message_granted req1 uid u d Hu Hform).
  cbn [outcome session_after db_after messages].
  split; [done|]. split; [apply lookup_insert_eq|].
  rewrite (homepage_signed_in req2 uid u); [|done]. cbn [outcome].
  edestruct (feed_newest_first
               (following uid
                  (mkDB (users d)
                     (<[S (messages_seq d) :=
                          mkMessage (f_text (form_data req1)) (now req1) uid]>
                        (messages d))
                     (follows d) (likes d) (users_seq d) (S (messages_seq d)))
                ++ [uid])) as [rest Hrest]; [| | |exists rest; by rewrite Hrest].
  - simpl. apply lookup_insert_eq.
  - simpl. apply elem_of_app. right. by apply list_elem_of_singleton.
  - intros k s Hks Hne. simpl in *.
    rewrite lookup_insert_ne in Hks by done. by apply Hlater in Hks.
Qed.

Lemma sample_messages_inv k m :
  messages sample_db !! k = Some m → timestamp m ≤ 30.
Proof.
  unfold sample_db. simpl. rewrite !lookup_insert_Some, lookup_empty.
  intros [[_ <-]|[_ [[_ <-]|[_ [[_ <-]|[_ Hnone]]]]]]; simpl; [lia..|done].
Qed.

Lemma add_message_tops_feed_witness :
  let req1 := post true (mkFormData "" "" "" "" "" "" "hi") in
  let req2 := mkRequest GET false blank_form "" 41 in
  users sample_db !! 1 = Some alice ∧
  @validate_on_submit sample_env MessageForm req1 = true ∧
  (∀ id m, messages sample_db !! id = Some m → timestamp m < now req1) ∧
  let r1 := @serve sample_env route_add_message req1 (Some 1) sample_db in
  let r2 := @serve sample_env route_homepage req2
              (session_after r1) (db_after r1) in
  let msg := mkMessage (f_text (form_data req1)) (now req1) 1 in
  outcome r1 = inr (redirect ("/users/" +:+ pretty 1)) ∧
  messages (db_after r1) !! S (messages_seq sample_db) = Some msg ∧
  ∃ rest,
    outcome r2 =
      inr (render_template "home.html"
             ((S (messages_seq sample_db), msg) :: rest)).
Proof.
  assert (∀ id m, messages sample_db !! id = Some m → timestamp m < 40)
    as Hlater.
  { intros id m Hm. apply sample_messages_inv in Hm. lia. }
  split; [reflexivity|]. split; [reflexivity|]. split; [exact Hlater|].
  apply (@add_message_tops_feed sample_env
           (post true (mkFormData "" "" "" "" "" "" "hi"))
           (mkRequest GET false blank_form "" 41) 1 alice sample_db);
    [reflexivity|reflexivity|exact Hlater].
Defined.

(** ** Editing the profile *)

(** X14: whatever a signed-in account sends to the profile route, the
    request leaves its password hash and its location as stored, keeps the
    row of every other account, the messages, the follow edges and the likes
    untouched, and keeps the session. *)
Theorem profile_preserves `{Collaborators} req uid u d :
  users d !! uid = Some u →
  let r := serve route_profile req (Some uid) d in
  (password <$> users (db_after r) !! uid) = Some (password u) ∧
  (location <$> users (db_after r) !! uid) = Some (location u) ∧
  (∀ k, k ≠ uid → users (db_after r) !! k = users d !! k) ∧
  messages (db_after r) = messages d ∧ follows (db_after r) = follows d ∧
  likes (db_after r) = likes d ∧ session_after r = Some uid.
Proof.
  intros Hu. unfold serve, view, profile.
  rewrite (add_user_to_g_signed_in uid u d Hu). simpl.
  destruct (validate_on_submit UserEditForm req); unfold_effects;
    [|by rewrite Hu].
  destruct (User_authenticate _ _ d); simpl; [|by rewrite Hu].
  destruct (taken (Some uid) _ d); simpl; [by rewrite Hu|].
  rewrite lookup_insert_eq. repeat split; try done.
  intros k Hne. by rewrite lookup_insert_ne.
Qed.

Lemma profile_preserves_witness :
  let req := post true (mkFormData "alicia" "wonderland" "a@example.com"
                          "" "" "hi" "") in
  users sample_db !! 1 = Some alice ∧
  let r := @serve sample_env route_profile req (Some 1) sample_db in
  (password <$> users (db_after r) !! 1) = Some (password alice) ∧
  (location <$> users (db_after r) !! 1) = Some (location alice) ∧
  (∀ k, k ≠ 1 → users (db_after r) !! k = users sample_db !! k) ∧
  messages (db_after r) = messages sample_db ∧
  follows (db_after r) = follows sample_db ∧
  likes (db_after r) = likes sample_db ∧ session_after r = Some 1.
Proof.
  split; [reflexivity|].
  apply (@profile_preserves sample_env
           (post true (mkFormData "alicia" "wonderland" "a@example.com"
                         "" "" "hi" ""))
           1 alice sample_db).
  reflexivity.
Defined.

(** X15: [profile] has no handler for the store's refusal.  A valid edit
    with the right password whose new username or email belongs to another
    account ends in the uncaught IntegrityError, and nothing is stored. *)
Theorem profile_duplicate_uncaught `{Collaborators} req uid u d k v :
  users d !! uid = Some u →
  validate_on_submit UserEditForm req = true →
  is_Some (User_authenticate (username u) (f_password (form_data req)) d) →
  users d !! k = Some v →
  k ≠ uid →
  f_username (form_data req) = username v ∨
    f_email (form_data req) = email v →
  serve route_profile req (Some uid) d =
    mkResult (inl IntegrityError) d (Some uid) [].
Proof.
  intros Hu Hform [acct Hauth] Hkv Hne Hdup. unfold serve, view, profile.
  rewrite (add_user_to_g_signed_in uid u d Hu). simpl. rewrite Hform.
  unfold_effects. rewrite Hauth. simpl.
  assert (taken (Some uid)
            (mkUser (f_username (form_data req)) (f_email (form_data req))
               (password u)
               (str_or (f_image_url (form_data req)) DEFAULT_IMAGE_URL)
               (str_or (f_header_image_url (form_data req))
                  DEFAULT_HEADER_IMAGE_URL)
               (f_bio (form_data req)) (location u)) d = true) as Htaken.
  { apply taken_true. exists k, v. split; [done|]. split; [congruence|].
    done. }
  by rewrite Htaken.
Qed.

Lemma profile_duplicate_uncaught_witness :
  let req := post true (mkFormData "bob" "wonderland" "a@example.com"
                          "" "" "" "") in
  users sample_db !! 1 = Some alice ∧
  @validate_on_submit sample_env UserEditForm req = true ∧
  is_Some (@User_authenticate sample_env (username alice)
             (f_password (form_data req)) sample_db) ∧
  users sample_db !! 2 = Some bob ∧
  2 ≠ 1 ∧
  (f_username (form_data req) = username bob ∨
   f_email (form_data req) = email bob) ∧
  @serve sample_env route_profile req (Some 1) sample_db =
    mkResult (inl IntegrityError) sample_db (Some 1) [].
Proof.
  split; [reflexivity|]. split; [reflexivity|].
  split; [by exists (1, alice)|]. split; [reflexivity|]. split; [lia|].
  split; [by left|].
  apply (@profile_duplicate_uncaught sample_env
           (post true (mkFormData "bob" "wonderland" "a@example.com"
                         "" "" "" ""))
           1 alice sample_db 2 bob);
    [reflexivity|reflexivity|by exists (1, alice)|reflexivity|lia|by left].
Defined.

(** ** The session and the store across all routes *)

Ltac unfold_views :=
  unfold demo, signup, login, logout, start_following, stop_following,
    profile, delete_user, add_message, like_message, delete_message, homepage.

(** As [unfold_effects], but leaves [flush] folded. *)
Ltac unfold_lazily :=
  unfold unauthorized, get_or_404, with_user, collection_remove, User_signup,
    try_except_IntegrityError, bind, ret, raise, enqueue, commit, query,
    flash, do_login, do_logout;
  cbn [store pending session flashes app outcome db_after session_after
       flashed].









Lemma flush_InsertUser_lookup row d d' :
  flush [InsertUser row] d = Some d' →
  users d' !! S (users_seq d) = Some row.
Proof.
  cbn [flush apply_op]. destruct (taken None row d); [done|].
  intros [= <-]. apply lookup_insert_eq.
Qed.

(** X18: a request never leaves in the session an id it has put there
    without an account row behind it: if the cookie after the request names
    an account, either the cookie named it before, or the account has a row
    in the committed database. *)
Theorem session_names_account `{Collaborators} r req sess d k :
  let res := serve r req sess d in
  session_after res = Some k →
  sess = Some k ∨ is_Some (users (db_after res) !! k).
Proof.
  cbv zeta. unfold serve.
  destruct r; cbn [view]; unfold_views; unfold_lazily;
    repeat case_match; unfold_lazily; simplify_eq;
    cbn [session_after db_after store session]; intros Hk; simplify_eq;
    try (by left); right.
  - match goal with Hauth : User_authenticate _ _ _ = Some _ |- _ =>
      apply User_authenticate_Some in Hauth as (Hrow & _ & _) end.
    by eexists.
  - match goal with Hflush : flush _ _ = Some _ |- _ =>
      apply flush_InsertUser_lookup in Hflush end.
    by eexists.
  - match goal with Hauth : User_authenticate _ _ _ = Some _ |- _ =>
      apply User_authenticate_Some in Hauth as (Hrow & _ & _) end.
    by eexists.
Qed.

Lemma session_names_account_witness :
  let req := post true (mkFormData "carol" "pw" "carol@example.com" "" "" "" "") in
  let res := @serve sample_env route_signup req (Some 1) sample_db in
  session_after res = Some 3 ∧
  (Some 1 = Some 3 ∨ is_Some (users (db_after res) !! 3)).
Proof.
  split; [reflexivity|].
  apply (@session_names_account sample_env route_signup
           (post true (mkFormData "carol" "pw" "carol@example.com" "" "" "" ""))
           (Some 1) sample_db 3).
  reflexivity.
Defined.

(** X19: a granted logout empties the session, flashes "Logged out",
    redirects to the login page and leaves the database alone; a second
    logout with the emptied session is denied as unauthorized. *)
Theorem logout_twice `{Collaborators} req1 req2 uid u d :
  users d !! uid = Some u →
  validate_on_submit CSRFProtectForm req1 = true →
  let r1 := serve route_logout req1 (Some uid) d in
  let r2 := serve route_logout req2 (session_after r1) (db_after r1) in
  r1 = mkResult (inr (redirect "/login")) d None [("Logged out", "success")] ∧
  r2 = access_unauthorized None d.
Proof.
  intros Hu Hform. cbv zeta.
  assert (serve route_logout req1 (Some uid) d =
          mkResult (inr (redirect "/login")) d None
                   [("Logged out", "success")]) as Hr1.
  { unfold serve, view, logout.
    by rewrite (add_user_to_g_signed_in uid u d Hu), Hform. }
  rewrite Hr1. split; [done|]. cbn [session_after db_after].
  reflexivity.
Qed.

Lemma logout_twice_witness :
  users sample_db !! 1 = Some alice ∧
  @validate_on_submit sample_env CSRFProtectForm (post true blank_form) = true ∧
  let r1 := @serve sample_env route_logout (post true blank_form)
              (Some 1) sample_db in
  let r2 := @serve sample_env route_logout (post true blank_form)
              (session_after r1) (db_after r1) in
  r1 = mkResult (inr (redirect "/login")) sample_db None
                [("Logged out", "success")] ∧
  r2 = access_unauthorized None sample_db.
Proof.
  do 2 (split; [reflexivity|]).
  apply (@logout_twice sample_env (post true blank_form)
           (post true blank_form) 1 alice sample_db); reflexivity.
Defined.

Lemma delete_user_granted `{Collaborators} req uid u d :
  users d !! uid = Some u →
  validate_on_submit CSRFProtectForm req = true →
  serve route_delete_user req (Some uid) d =
    mkResult (inr (redirect "/signup"))
             (drop_user uid
                (drop_messages (λ _ m, bool_decide (user_id m = uid)) d))
             None [].
Proof.
  intros Hu Hform. unfold serve, view, delete_user.
  rewrite (add_user_to_g_signed_in uid u d Hu), Hform. unfold_lazily.
  cbn [truthy g_user negb orb].
  unfold_lazily. by rewrite flush_delete_user.
Qed.

(** A session that resolves to no account is turned away by every route
    that checks [g.user], and gets the anonymous home page. *)
Lemma no_account_denied `{Collaborators} r req sess d :
  g_user (add_user_to_g sess d) = None →
  match gate_of r with
  | token_gate | form_gate _ =>
      serve r req sess d = access_unauthorized sess d
  | ungated =>
      r = route_homepage →
      serve r req sess d =
        mkResult (inr (render_template "home-anon.html" [])) d sess []
  end.
Proof.
  intros Hg. unfold serve.
  destruct r; cbn [gate_of view]; try discriminate; unfold_views;
    rewrite ?Hg; cbn [truthy negb orb]; rewrite ?orb_true_r; done.
Qed.

(** X20: deleting the account ends every session of it.  After the granted
    self-delete, a cookie that still carries the deleted id (another
    browser, say) is treated as no account at all: the routes that check
    the account answer "access unauthorized", and the home page is the
    anonymous one. *)
Theorem deleted_account_sessions_end `{Collaborators} r req1 req2 uid u d :
  users d !! uid = Some u →
  validate_on_submit CSRFProtectForm req1 = true →
  let d1 := db_after (serve route_delete_user req1 (Some uid) d) in
  let r2 := serve r req2 (Some uid) d1 in
  match gate_of r with
  | token_gate | form_gate _ => r2 = access_unauthorized (Some uid) d1
  | ungated =>
      r = route_homepage →
      r2 = mkResult (inr (render_template "home-anon.html" [])) d1
                    (Some uid) []
  end.
Proof.
  intros Hu Hform. cbv zeta.
  rewrite (delete_user_granted req1 uid u d Hu Hform). cbn [db_after].
  apply no_account_denied. unfold add_user_to_g, drop_user. cbn [users].
  by rewrite lookup_delete_eq.
Qed.

Lemma deleted_account_sessions_end_witness :
  users sample_db !! 2 = Some bob ∧
  @validate_on_submit sample_env CSRFProtectForm (post true blank_form) = true ∧
  let d1 := db_after (@serve sample_env route_delete_user
                        (post true blank_form) (Some 2) sample_db) in
  @serve sample_env route_add_message
    (post true (mkFormData "" "" "" "" "" "" "again")) (Some 2) d1 =
  access_unauthorized (Some 2) d1.
Proof.
  do 2 (split; [reflexivity|]).
  apply (@deleted_account_sessions_end sample_env route_add_message
           (post true blank_form)
           (post true (mkFormData "" "" "" "" "" "" "again"))
           2 bob sample_db); reflexivity.
Defined.

(** ** Read-only views *)



Lemma show_liked_messages_signed_in `{Collaborators} req viewer w uid u d :
  users d !! viewer = Some w →
  users d !! uid = Some u →
  serve_page (route_show_liked_messages uid) req (Some viewer) d =
    mkPageResult (inr (page_user "users/show.html" (uid, u)
                         (Some (liked_messages uid d))))
                 d (Some viewer) [].
Proof.
  intros Hw Hu. unfold serve_page, read_view, show_liked_messages.
  rewrite (add_user_to_g_signed_in viewer w d Hw). unfold_effects.
  by rewrite Hu.
Qed.

Lemma show_user_signed_in `{Collaborators} req viewer w uid u d :
  users d !! viewer = Some w →
  users d !! uid = Some u →
  serve_page (route_show_user uid) req (Some viewer) d =
    mkPageResult (inr (page_user "users/show.html" (uid, u)
                         (Some (authored_messages uid d))))
                 d (Some viewer) [].
Proof.
  intros Hw Hu. unfold serve_page, read_view, show_user.
  rewrite (add_user_to_g_signed_in viewer w d Hw). unfold_effects.
  by rewrite Hu.
Qed.

Lemma like_message_granted `{Collaborators} req uid u d msg_id m :
  users d !! uid = Some u →
  validate_on_submit CSRFProtectForm req = true →
  messages d !! msg_id = Some m →
  user_id m ≠ uid →
  serve (route_like_message msg_id) req (Some uid) d =
    mkResult (inr (redirect (referrer req)))
             (mkDB (users d) (messages d) (follows d)
                   (if bool_decide ((uid, msg_id) ∈ likes d)
                    then likes d ∖ {[(uid, msg_id)]}
                    else {[(uid, msg_id)]} ∪ likes d)
                   (users_seq d) (messages_seq d))
             (Some uid) [].
Proof.
  intros Hu Hform Hm Hown. unfold serve, view, like_message.
  rewrite (add_user_to_g_signed_in uid u d Hu), Hform. unfold_effects.
  rewrite Hm. simpl. rewrite (bool_decide_eq_false_2 _ Hown). simpl.
  destruct (bool_decide ((uid, msg_id) ∈ likes d)) eqn:Hliked; simpl;
    [done|by rewrite Hliked].
Qed.

(** X22: the liked-messages page follows the toggle.  After a granted like
    request by an account on a message of another account, the message is
    on that account's liked-messages page, as any signed-in viewer sees it,
    exactly when it was not liked before. *)
Theorem liked_page_after_like `{Collaborators} req1 req2 viewer w uid u d msg_id m :
  users d !! uid = Some u →
  users d !! viewer = Some w →
  validate_on_submit CSRFProtectForm req1 = true →
  messages d !! msg_id = Some m →
  user_id m ≠ uid →
  let r1 := serve (route_like_message msg_id) req1 (Some uid) d in
  ∃ shown,
    page (serve_page (route_show_liked_messages uid) req2 (Some viewer)
            (db_after r1)) =
      inr (page_user "users/show.html" (uid, u) (Some shown)) ∧
    ((msg_id, m) ∈ shown ↔ (uid, msg_id) ∉ likes d).
Proof.
  intros Hu Hw Hform Hm Hown. cbv zeta.
  rewrite (like_message_granted req1 uid u d msg_id m Hu Hform Hm Hown).
  cbn [db_after].
  rewrite (show_liked_messages_signed_in req2 viewer w uid u); [|done..].
  eexists. split; [reflexivity|]. unfold liked_messages. cbn [likes messages].
  rewrite list_elem_of_filter, elem_of_map_to_list. cbn [fst snd].
  destruct (decide ((uid, msg_id) ∈ likes d)) as [Hin|Hout].
  - rewrite (bool_decide_eq_true_2 _ Hin).
    rewrite elem_of_difference, elem_of_singleton. tauto.
  - rewrite (bool_decide_eq_false_2 _ Hout).
    rewrite elem_of_union, elem_of_singleton. tauto.
Qed.

Lemma liked_page_after_like_witness :
  users sample_db !! 1 = Some alice ∧
  users sample_db !! 2 = Some bob ∧
  @validate_on_submit sample_env CSRFProtectForm (post true blank_form) = true ∧
  messages sample_db !! 3 = Some (mkMessage "second" 30 2) ∧
  user_id (mkMessage "second" 30 2) ≠ 1 ∧
  let r1 := @serve sample_env (route_like_message 3) (post true blank_form)
              (Some 1) sample_db in
  ∃ shown,
    page (@serve_page sample_env (route_show_liked_messages 1)
            (mkRequest GET false blank_form "" 41) (Some 2) (db_after r1)) =
      inr (page_user "users/show.html" (1, alice) (Some shown)) ∧
    ((3, mkMessage "second" 30 2) ∈ shown ↔ (1, 3) ∉ likes sample_db).
Proof.
  do 4 (split; [reflexivity|]). split; [simpl; lia|].
  apply (@liked_page_after_like sample_env (post true blank_form)
           (mkRequest GET false blank_form "" 41) 2 bob 1 alice sample_db 3
           (mkMessage "second" 30 2)); try reflexivity.
  simpl; lia.
Defined.

(** X23: a composed message shows on its author's profile page, whoever
    the signed-in viewer is, and the page lists only messages the account
    owns. *)
Theorem user_page_after_add_message `{Collaborators} req1 req2 viewer w uid u d :
  users d !! uid = Some u →
  users d !! viewer = Some w →
  validate_on_submit MessageForm req1 = true →
  let r1 := serve route_add_message req1 (Some uid) d in
  let msg := mkMessage (f_text (form_data req1)) (now req1) uid in
  ∃ shown,
    page (serve_page (route_show_user uid) req2 (Some viewer) (db_after r1)) =
      inr (page_user "users/show.html" (uid, u) (Some shown)) ∧
    (S (messages_seq d), msg) ∈ shown ∧
    ∀ id m, (id, m) ∈ shown → user_id m = uid.
Proof.
  intros Hu Hw Hform. cbv zeta.
  rewrite (add_message_granted req1 uid u d Hu Hform). cbn [db_after].
  rewrite (show_user_signed_in req2 viewer w uid u); [|done..].
  eexists. split; [reflexivity|]. unfold authored_messages. cbn [messages].
  split.
  - apply list_elem_of_filter. split; [done|].
    apply elem_of_map_to_list, lookup_insert_eq.
  - intros id m Hin. by apply list_elem_of_filter in Hin as [Hown _].
Qed.

Lemma user_page_after_add_message_witness :
  let req1 := post true (mkFormData "" "" "" "" "" "" "hi") in
  users sample_db !! 1 = Some alice ∧
  users sample_db !! 2 = Some bob ∧
  @validate_on_submit sample_env MessageForm req1 = true ∧
  let r1 := @serve sample_env route_add_message req1 (Some 1) sample_db in
  let msg := mkMessage (f_text (form_data req1)) (now req1) 1 in
  ∃ shown,
    page (@serve_page sample_env (route_show_user 1)
            (mkRequest GET false blank_form "" 41) (Some 2) (db_after r1)) =
      inr (page_user "users/show.html" (1, alice) (Some shown)) ∧
    (S (messages_seq sample_db), msg) ∈ shown ∧
    ∀ id m, (id, m) ∈ shown → user_id m = 1.
Proof.
  do 3 (split; [reflexivity|]).
  apply (@user_page_after_add_message sample_env
           (post true (mkFormData "" "" "" "" "" "" "hi"))
           (mkRequest GET false blank_form "" 41) 2 bob 1 alice sample_db);
    reflexivity.
Defined.

(** ** More on likes *)

(** X24: a granted like request on a message of another account touches
    one like edge only: every other like edge, and the accounts, messages
    and follow edges, are as before, and the session is kept. *)
Theorem like_touches_one_edge `{Collaborators} req uid u d msg_id m :
  users d !! uid = Some u →
  validate_on_submit CSRFProtectForm req = true →
  messages d !! msg_id = Some m →
  user_id m ≠ uid →
  let r := serve (route_like_message msg_id) req (Some uid) d in
  (∀ e, e ≠ (uid, msg_id) → e ∈ likes (db_after r) ↔ e ∈ likes d) ∧
  users (db_after r) = users d ∧ messages (db_after r) = messages d ∧
  follows (db_after r) = follows d ∧ session_after r = Some uid.
Proof.
  intros Hu Hform Hm Hown. cbv zeta.
  rewrite (like_message_granted req uid u d msg_id m Hu Hform Hm Hown).
  cbn [db_after session_after users messages follows likes].
  split; [|done]. intros e Hne.
  destruct (bool_decide ((uid, msg_id) ∈ likes d)).
  - rewrite elem_of_difference, elem_of_singleton. tauto.
  - rewrite elem_of_union, elem_of_singleton. tauto.
Qed.

Lemma like_touches_one_edge_witness :
  users sample_db !! 1 = Some alice ∧
  @validate_on_submit sample_env CSRFProtectForm (post true blank_form) = true ∧
  messages sample_db !! 3 = Some (mkMessage "second" 30 2) ∧
  user_id (mkMessage "second" 30 2) ≠ 1 ∧
  let r := @serve sample_env (route_like_message 3) (post true blank_form)
             (Some 1) sample_db in
  (∀ e, e ≠ (1, 3) → e ∈ likes (db_after r) ↔ e ∈ likes sample_db) ∧
  users (db_after r) = users sample_db ∧
  messages (db_after r) = messages sample_db ∧
  follows (db_after r) = follows sample_db ∧ session_after r = Some 1.
Proof.
  do 3 (split; [reflexivity|]). split; [simpl; lia|].
  apply (@like_touches_one_edge sample_env (post true blank_form)
           1 alice sample_db 3 (mkMessage "second" 30 2)); try reflexivity.
  simpl; lia.
Defined.
